(** * dagger: readiness gating, order bookkeeping and balance reconciliation

    A shallow embedding of the order/trader/market layer of the dagger
    exchange connectivity core:

    - [okexv5.SpotMarket], [okexv5.FutureMarket]  (cex/okexv5/spot_market.go,
      cex/okexv5/future_market.go): feed freshness flags, [Ready], and the
      price alignment of derivative markets;
    - [okexv5.ContractOrder]  (cex/okexv5/contract_order.go): position-side
      selection;
    - [binance.SpotTrader]    (cex/binance/spot_trader.go): readiness gate,
      error lock, live-order map, sweep, deal reconciliation.

    Go state is threaded explicitly.  Calls that leave the modelled state
    (logging, sleeping, asynchronous submission, callbacks into strategy
    code) are recorded, in program order, in a trace of effects.  A call
    that can panic yields an outcome: it returns, or it panics and leaves
    the world as the assignments made so far have left it. *)

From Stdlib Require Import ZArith QArith Qpower Qcanon.
From stdpp Require Import base strings pretty list functions gmap fin_maps.

Local Open Scope Qc_scope.

(* ===================================================================== *)
(** * github.com/shopspring/decimal                                       *)
(* ===================================================================== *)

(** [decimal.Decimal] is an arbitrary-precision decimal: an unbounded
    integer coefficient [value] and an [int32] exponent [exp], denoting
    [value * 10 ^ exp].  [Add] and [Neg] are exact and total, the
    comparisons are those of the numbers denoted, and [Mul] is exact but
    panics when the sum of the two exponents leaves the [int32] range. *)
Module decimal.

Record Decimal : Type := mkDecimal {
  value : Z;
  exp : Z
}.

Declare Scope decimal_scope.
Delimit Scope decimal_scope with decimal.
Bind Scope decimal_scope with Decimal.

Definition MaxInt32 : Z := 2147483647.
Definition MinInt32 : Z := -2147483648.

(** The number a Decimal denotes. *)
Definition toQ (d : Decimal) : Q := (inject_Z (value d) * (10 # 1) ^ exp d)%Q.

Definition toQc (d : Decimal) : Qc := Q2Qc (toQ d).

Coercion toQc : Decimal >-> Qc.

(** The zero value [decimal.Decimal{}] of an unassigned field, and
    [decimal.Zero]. *)
Definition Zero : Decimal := mkDecimal 0 0.

Definition NewFromInt (n : Z) : Decimal := mkDecimal n 0.

Notation "0" := Zero : decimal_scope.
Notation "1" := (NewFromInt 1) : decimal_scope.

(** [rescale]: the same number with exponent [e] when [e] is the smaller
    exponent (the coefficient is multiplied by a power of ten); towards a
    larger exponent the coefficient is divided, truncating. *)
Definition rescale (e : Z) (d : Decimal) : Decimal :=
  if bool_decide (exp d = e) then d
  else if bool_decide (exp d < e)%Z
       then mkDecimal (Z.quot (value d) (10 ^ (e - exp d))) e
       else mkDecimal (value d * 10 ^ (exp d - e)) e.

(** [RescalePair]: both numbers at the smaller of the two exponents. *)
Definition RescalePair (d1 d2 : Decimal) : Decimal * Decimal :=
  if bool_decide (exp d1 = exp d2) then (d1, d2)
  else
    let baseScale := Z.min (exp d1) (exp d2) in
    if bool_decide (baseScale <> exp d1) then (rescale baseScale d1, d2)
    else (d1, rescale baseScale d2).

Definition Add (d d2 : Decimal) : Decimal :=
  let '(rd, rd2) := RescalePair d d2 in
  mkDecimal (value rd + value rd2) (exp rd).

Definition Neg (d : Decimal) : Decimal := mkDecimal (- value d) (exp d).

(** [Mul]: [None] is the panic "exponent overflows an int32". *)
Definition Mul (d d2 : Decimal) : option Decimal :=
  let expInt64 := (exp d + exp d2)%Z in
  if bool_decide (MaxInt32 < expInt64 \/ expInt64 < MinInt32)%Z then None
  else Some (mkDecimal (value d * value d2) expInt64).

(** [Cmp] rescales the pair, which is exact, and compares the
    coefficients: it compares the two numbers. *)
Definition GreaterThan (d d2 : Decimal) : bool := bool_decide (toQc d2 < toQc d).
Definition LessThan (d d2 : Decimal) : bool := bool_decide (toQc d < toQc d2).

End decimal.

Export decimal.

(** [time.Time] and [time.Duration]: a point in time in milliseconds, a
    duration in nanoseconds. *)
Definition Time : Type := Z.
Definition Duration : Type := Z.
Definition Second : Duration := 1000000000%Z.

(* ===================================================================== *)
(** * cex/common                                                          *)
(* ===================================================================== *)

Module common.

(** [common.OrderDir] is an integer type with the two named constants
    [OrderDir_Buy] and [OrderDir_Sell]; the code tests for each of them
    separately ([if .. else if ..]), and [OrderDir_Unknown] stands for
    any value that is neither. *)
Inductive OrderDir : Type :=
| OrderDir_Buy
| OrderDir_Sell
| OrderDir_Unknown.

#[export] Instance OrderDir_eq_dec : EqDecision OrderDir.
Proof. solve_decision. Defined.

(** Modelled from the spec: [common.BalanceImpl], the balance ledger of
    one currency (its source file is not part of the sources at hand).
    Section 4.1: [Available()], [Rights()], [Ready() (bool, reason)], and
    [RecordTempRights(delta, at)], which "applies a provisional equity
    adjustment effective immediately, to be reconciled later against an
    authoritative account snapshot"; section 3: rights include the "sum
    of outstanding temporary adjustments", "keyed by a fill timestamp". *)
Record BalanceImpl : Type := mkBalance {
  ccy : string;
  available : Decimal;
  rights : Decimal;                     (* last authoritative equity *)
  tempRights : list (Time * Decimal);   (* outstanding adjustments *)
  ready : bool;                         (* authoritative snapshot seen *)
  reason : string
}.

Definition Ccy (b : BalanceImpl) : string := ccy b.

Definition Available (b : BalanceImpl) : Decimal := available b.

(** Modelled from the spec: [Rights()] of the absent [BalanceImpl]: the
    equity "including unrealized temporary adjustments" (section 3). *)
Definition Rights (b : BalanceImpl) : Decimal :=
  foldr (fun adj acc => Add adj.2 acc) (rights b) (tempRights b).

(** Modelled from the spec: [Ready()] of the absent [BalanceImpl], the
    readiness flag and its reason (section 4.1). *)
Definition Ready (b : BalanceImpl) : bool * string := (ready b, reason b).

(** Modelled from the spec: [RecordTempRights] of the absent
    [BalanceImpl]: the adjustment is recorded under its time and counts
    towards the rights at once (section 4.1). *)
Definition RecordTempRights (delta : Decimal) (at_ : Time) (b : BalanceImpl)
  : BalanceImpl :=
  {| ccy := ccy b; available := available b; rights := rights b;
     tempRights := (at_, delta) :: tempRights b;
     ready := ready b; reason := reason b |}.

End common.

Export common.

(* ===================================================================== *)
(** * cex/okexv5                                                          *)
(* ===================================================================== *)

Module okexv5.

(** The embedded [CommonMarket] struct.  Its declaration is not part of
    the sources at hand; the two fields below are the ones the market
    types read ([m.instId], [m.depthOK]). *)
Record CommonMarket : Type := mkCommonMarket {
  instId : string;
  depthOK : bool
}.

(** ** spot_market.go *)
Module SpotMarket.

Record t : Type := mk {
  base : CommonMarket;      (* embedded CommonMarket *)
  baseCcy : string;
  quoteCcy : string
}.

Definition Ready (m : t) : bool := depthOK (base m).

Definition UnreadyReason (m : t) : string :=
  if negb (depthOK (base m)) then "depth not ready" else "".

Definition BaseCurrency (m : t) : string := baseCcy m.
Definition QuoteCurrency (m : t) : string := quoteCcy m.

End SpotMarket.

(** ** future_market.go *)
Module FutureMarket.

Record t : Type := mk {
  base : CommonMarket;      (* embedded CommonMarket *)
  markprice : Decimal;
  maxBuyPrice : Decimal;
  minSellPrice : Decimal;
  fundingRate : Decimal;
  nextFundingRate : Decimal;
  fundingTime : Time;
  nextFundingTime : Time;
  markpriceOK : bool;
  priceLimitOK : bool;
  fundingFeeOK : bool
}.

(** A freshly allocated [FutureMarket]: every field holds its zero
    value. *)
Definition zero : t :=
  {| base := mkCommonMarket "" false;
     markprice := Zero; maxBuyPrice := Zero; minSellPrice := Zero;
     fundingRate := Zero; nextFundingRate := Zero;
     fundingTime := 0%Z; nextFundingTime := 0%Z;
     markpriceOK := false; priceLimitOK := false; fundingFeeOK := false |}.

(** [strings.Contains]. *)
Definition Contains (s substr : string) : bool :=
  bool_decide (is_Some (String.index 0 substr s)).

(** [Init], with [subscribe] inlined.  [CommonMarket.Init] and
    [CommonMarket.subscribe] are outside the sources at hand and are
    given by their result [cm].  The three flags are cleared; the
    subscriptions deliver their first responses later, so no price
    field is assigned; an instrument that is not a perpetual swap has
    no funding feed and its flag is raised at once. *)
Definition Init (cm : CommonMarket) (instID : string) (m : t) : t :=
  {| base := cm;
     markprice := markprice m; maxBuyPrice := maxBuyPrice m;
     minSellPrice := minSellPrice m;
     fundingRate := fundingRate m; nextFundingRate := nextFundingRate m;
     fundingTime := fundingTime m; nextFundingTime := nextFundingTime m;
     markpriceOK := false; priceLimitOK := false;
     fundingFeeOK := negb (Contains instID "SWAP") |}.

(** [onPriceLimitResp], with the two limits of the response already
    parsed ([util.String2DecimalPanic]). *)
Definition onPriceLimitResp (SellLimit BuyLimit : Decimal) (m : t) : t :=
  {| base := base m;
     markprice := markprice m;
     maxBuyPrice := BuyLimit;
     minSellPrice := SellLimit;
     fundingRate := fundingRate m; nextFundingRate := nextFundingRate m;
     fundingTime := fundingTime m; nextFundingTime := nextFundingTime m;
     markpriceOK := markpriceOK m; priceLimitOK := priceLimitOK m;
     fundingFeeOK := fundingFeeOK m |}.

(** The callback of the price-limit subscription (and the REST
    fallback): store the limits, then raise the flag. *)
Definition priceLimitCallback (SellLimit BuyLimit : Decimal) (m : t) : t :=
  let m' := onPriceLimitResp SellLimit BuyLimit m in
  {| base := base m';
     markprice := markprice m';
     maxBuyPrice := maxBuyPrice m';
     minSellPrice := minSellPrice m';
     fundingRate := fundingRate m'; nextFundingRate := nextFundingRate m';
     fundingTime := fundingTime m'; nextFundingTime := nextFundingTime m';
     markpriceOK := markpriceOK m'; priceLimitOK := true;
     fundingFeeOK := fundingFeeOK m' |}.

Definition Ready (m : t) : bool :=
  depthOK (base m) && fundingFeeOK m && markpriceOK m && priceLimitOK m.

Section AlignPrice.

(** [CommonMarket.AlignPrice], the tick-size alignment of the
    embedded struct, is outside the sources at hand. *)
Variable CommonMarket_AlignPrice :
  CommonMarket -> Decimal -> OrderDir -> bool -> Decimal.

Definition AlignPrice (m : t) (price : Decimal) (dir : OrderDir)
           (makeOnly : bool) : Decimal :=
  let aligned := CommonMarket_AlignPrice (base m) price dir makeOnly in
  if bool_decide (dir = OrderDir_Buy)
     && GreaterThan aligned (maxBuyPrice m)
  then maxBuyPrice m
  else if bool_decide (dir = OrderDir_Sell)
          && LessThan aligned (minSellPrice m)
  then minSellPrice m
  else aligned.

(** The alignment as the specification words it, for comparison with
    [AlignPrice]: the base alignment first, then the clamping to the
    limits "when such limits are known", that is, while the
    price-limit flag says that a response has set them. *)
Definition AlignPrice_spec (m : t) (price : Decimal) (dir : OrderDir)
           (makeOnly : bool) : Decimal :=
  let aligned := CommonMarket_AlignPrice (base m) price dir makeOnly in
  if priceLimitOK m then
    match dir with
    | OrderDir_Buy =>
        if GreaterThan aligned (maxBuyPrice m) then maxBuyPrice m else aligned
    | OrderDir_Sell =>
        if LessThan aligned (minSellPrice m) then minSellPrice m else aligned
    | OrderDir_Unknown => aligned
    end
  else aligned.

End AlignPrice.

(** ** The feeds of [subscribe]

    [subscribe] starts one goroutine per feed.  Each one owns a flag: the
    callback of the subscription stores the response and raises the flag,
    the timeout of the goroutine clears it (and re-subscribes).  The price
    limits have a second source, a REST poll that counts when it succeeds.
    The funding feed exists for perpetual swaps only.  The subscriptions of
    the embedded [CommonMarket] (depth among them) change the embedded
    struct. *)
Inductive Feed : Type :=
| MarkPriceResp (MarkPrice : Decimal)
| MarkPriceTimeout
| PriceLimitResp (SellLimit BuyLimit : Decimal)
| PriceLimitREST (ok : bool) (SellLimit BuyLimit : Decimal)
      (* [ok]: [err == nil && resp.Code == "0"] *)
| PriceLimitTimeout
| FundingRateResp (FundingRate NextFundingRate : Decimal)
                  (FundingTime NextFundingTime : Time)
| FundingTimeout
| CommonFeed (cm : CommonMarket).

(** The events that the goroutines started for [instID] can produce. *)
Definition possible (instID : string) (ev : Feed) : bool :=
  match ev with
  | FundingRateResp _ _ _ _ | FundingTimeout => Contains instID "SWAP"
  | _ => true
  end.

Definition with_base (cm : CommonMarket) (m : t) : t :=
  {| base := cm;
     markprice := markprice m; maxBuyPrice := maxBuyPrice m;
     minSellPrice := minSellPrice m;
     fundingRate := fundingRate m; nextFundingRate := nextFundingRate m;
     fundingTime := fundingTime m; nextFundingTime := nextFundingTime m;
     markpriceOK := markpriceOK m; priceLimitOK := priceLimitOK m;
     fundingFeeOK := fundingFeeOK m |}.

Definition set_markpriceOK (b : bool) (m : t) : t :=
  {| base := base m;
     markprice := markprice m; maxBuyPrice := maxBuyPrice m;
     minSellPrice := minSellPrice m;
     fundingRate := fundingRate m; nextFundingRate := nextFundingRate m;
     fundingTime := fundingTime m; nextFundingTime := nextFundingTime m;
     markpriceOK := b; priceLimitOK := priceLimitOK m;
     fundingFeeOK := fundingFeeOK m |}.

Definition set_priceLimitOK (b : bool) (m : t) : t :=
  {| base := base m;
     markprice := markprice m; maxBuyPrice := maxBuyPrice m;
     minSellPrice := minSellPrice m;
     fundingRate := fundingRate m; nextFundingRate := nextFundingRate m;
     fundingTime := fundingTime m; nextFundingTime := nextFundingTime m;
     markpriceOK := markpriceOK m; priceLimitOK := b;
     fundingFeeOK := fundingFeeOK m |}.

Definition set_fundingFeeOK (b : bool) (m : t) : t :=
  {| base := base m;
     markprice := markprice m; maxBuyPrice := maxBuyPrice m;
     minSellPrice := minSellPrice m;
     fundingRate := fundingRate m; nextFundingRate := nextFundingRate m;
     fundingTime := fundingTime m; nextFundingTime := nextFundingTime m;
     markpriceOK := markpriceOK m; priceLimitOK := priceLimitOK m;
     fundingFeeOK := b |}.

(** [onFundingRateResp], with the fields of the response already parsed;
    it raises the flag itself. *)
Definition onFundingRateResp (FundingRate NextFundingRate : Decimal)
           (FundingTime NextFundingTime : Time) (m : t) : t :=
  {| base := base m;
     markprice := markprice m; maxBuyPrice := maxBuyPrice m;
     minSellPrice := minSellPrice m;
     fundingRate := FundingRate; nextFundingRate := NextFundingRate;
     fundingTime := FundingTime; nextFundingTime := NextFundingTime;
     markpriceOK := markpriceOK m; priceLimitOK := priceLimitOK m;
     fundingFeeOK := true |}.

Section Feeds.

(** [CommonMarket.AlignPriceNumber], the rounding of a number to the tick
    size, is outside the sources at hand. *)
Variable AlignPriceNumber : CommonMarket -> Decimal -> Decimal.

(** [onMarkPriceResp], with the mark price of the response already
    parsed. *)
Definition onMarkPriceResp (MarkPrice : Decimal) (m : t) : t :=
  {| base := base m;
     markprice := AlignPriceNumber (base m) MarkPrice;
     maxBuyPrice := maxBuyPrice m;
     minSellPrice := minSellPrice m;
     fundingRate := fundingRate m; nextFundingRate := nextFundingRate m;
     fundingTime := fundingTime m; nextFundingTime := nextFundingTime m;
     markpriceOK := markpriceOK m; priceLimitOK := priceLimitOK m;
     fundingFeeOK := fundingFeeOK m |}.

(** What one event of a feed does to the market. *)
Definition feed (m : t) (ev : Feed) : t :=
  match ev with
  | MarkPriceResp p => set_markpriceOK true (onMarkPriceResp p m)
  | MarkPriceTimeout => set_markpriceOK false m
  | PriceLimitResp s b => priceLimitCallback s b m
  | PriceLimitREST ok s b => if ok then priceLimitCallback s b m else m
  | PriceLimitTimeout => set_priceLimitOK false m
  | FundingRateResp r nr ft nft =>
      set_fundingFeeOK true (onFundingRateResp r nr ft nft m)
  | FundingTimeout => set_fundingFeeOK false m
  | CommonFeed cm => with_base cm m
  end.

Definition feeds (m : t) (evs : list Feed) : t := foldl feed m evs.

End Feeds.

(** The limits of the latest price-limit response among [evs], from the
    subscription or from a successful poll. *)
Definition lastPriceLimit (evs : list Feed) : option (Decimal * Decimal) :=
  foldl (fun acc ev =>
           match ev with
           | PriceLimitResp s b => Some (s, b)
           | PriceLimitREST true s b => Some (s, b)
           | _ => acc
           end) None evs.

Definition isMarkPriceResp (ev : Feed) : bool :=
  match ev with MarkPriceResp _ => true | _ => false end.

Definition isFundingRateResp (ev : Feed) : bool :=
  match ev with FundingRateResp _ _ _ _ => true | _ => false end.

End FutureMarket.

(** ** contract_order.go *)
Module ContractOrder.

(** What [getPosSide] and [tradeMode] read through [o.trader]: the
    exchange configuration and the two sides of the position. *)
Record FutureTrader : Type := mkFutureTrader {
  instId : string;                (* trader.market.instId *)
  PositionMode : string;          (* trader.exchange.excfg.PositionMode *)
  ContractTradeMode : string;     (* trader.exchange.excfg.ContractTradeMode *)
  pos_Long : Decimal;             (* trader.pos.Long() *)
  pos_Short : Decimal             (* trader.pos.Short() *)
}.

(** The embedded [CommonOrder]: the fields the contract order reads or
    writes, and whether the two hooks have been installed. *)
Record CommonOrder : Type := mkCommonOrder {
  CltOrderId : string;
  Purpose : string;
  Dir : OrderDir;
  Size : Decimal;
  ReduceOnly : bool;
  hooks : bool                    (* getPosSide and tradeMode assigned *)
}.

Record t : Type := mk {
  base : CommonOrder;             (* embedded CommonOrder *)
  trader : FutureTrader
}.

Definition GreaterThanOrEqual (d d2 : Decimal) : bool := bool_decide (d2 <= d).

Section Init.

(** [okexv5api.PositonMode_LS], [NewClientOrderId] and
    [CommonOrder.Init] are outside the sources at hand.
    [CommonOrder.Init] receives the order under construction and
    every argument the contract order forwards to it, [reduceOnly]
    included, and yields the order as it leaves it and its boolean
    result. *)
Variable PositonMode_LS : string.
Variable NewClientOrderId : string -> string.
Variable CommonOrder_Init :
  CommonOrder -> FutureTrader -> string -> Decimal -> Decimal ->
  OrderDir -> bool -> bool -> string -> CommonOrder * bool.

Definition getPosSide (o : t) : string :=
  if bool_decide (PositionMode (trader o) = PositonMode_LS) then
    if bool_decide (Dir (base o) = OrderDir_Buy) then
      if GreaterThanOrEqual (pos_Short (trader o)) (Size (base o))
         || ReduceOnly (base o)
      then "short" else "long"
    else
      if GreaterThanOrEqual (pos_Long (trader o)) (Size (base o))
         || ReduceOnly (base o)
      then "long" else "short"
  else "".

Definition tradeMode (o : t) : string := ContractTradeMode (trader o).

Definition with_CltOrderId (cid : string) (c : CommonOrder) : CommonOrder :=
  {| CltOrderId := cid; Purpose := Purpose c; Dir := Dir c;
     Size := Size c; ReduceOnly := ReduceOnly c; hooks := hooks c |}.

Definition with_hooks (c : CommonOrder) : CommonOrder :=
  {| CltOrderId := CltOrderId c; Purpose := Purpose c; Dir := Dir c;
     Size := Size c; ReduceOnly := ReduceOnly c; hooks := true |}.

(** [Init] returns the order as the call leaves it and the boolean
    result. *)
Definition Init (o : t) (tr : FutureTrader) (price amount : Decimal)
           (dir : OrderDir) (makeOnly reduceOnly : bool)
           (purpose : string) : t * bool :=
  let c1 := with_CltOrderId (NewClientOrderId (Purpose (base o))) (base o) in
  let '(c2, ok) := CommonOrder_Init c1 tr (instId tr) price amount dir
                                    makeOnly reduceOnly purpose in
  if ok then (mk (with_hooks c2) tr, true) else (mk c2 tr, false).

End Init.

End ContractOrder.

End okexv5.


(* ===================================================================== *)
(** * cex/binance: spot_trader.go                                         *)
(* ===================================================================== *)

Module binance.

(** The trader reaches its market through [*SpotMarket], whose source
    file is not part of the sources at hand.  The trader is therefore
    stated over any market type offering the methods it calls (those of
    the [common.SpotMarket] interface, and the [instId] field). *)
Class SpotMarket (M : Type) : Type := {
  instId : M -> string;
  market_Ready : M -> bool;
  market_UnreadyReason : M -> string;
  BaseCurrency : M -> string;
  QuoteCurrency : M -> string
}.

(** The okexv5 spot market of spot_market.go is such a market. *)
#[export] Instance okexv5_SpotMarket : SpotMarket okexv5.SpotMarket.t := {|
  instId := fun m => okexv5.instId (okexv5.SpotMarket.base m);
  market_Ready := okexv5.SpotMarket.Ready;
  market_UnreadyReason := okexv5.SpotMarket.UnreadyReason;
  BaseCurrency := okexv5.SpotMarket.BaseCurrency;
  QuoteCurrency := okexv5.SpotMarket.QuoteCurrency
|}.

(** [binance.OrderSnapshot]: the two fields the trader reads, and the
    normalised status fields that the order consumes. *)
Record OrderSnapshot : Type := mkOrderSnapshot {
  StratergyId : Z;
  ClientOrderID : string;
  Status : string;
  FilledSize : Decimal;
  AvgPrice : Decimal;
  UpdateTime : Time
}.

Section Trader.

Context {M : Type} `{!SpotMarket M}.

(** The strategy's implementations of [common.OrderObserver]. *)
Context {Obs : Type}.

(** An observer registered on an order: the trader itself
    ([o.AddObserver(t)]) or an observer of the caller. *)
Inductive OrderObserver : Type :=
| ObsTrader
| ObsExternal (obs : Obs).

(** [SpotOrder]: what the trader reads of it ([CltOrderId], [Finished],
    [GetDir()]), the arguments [Init] receives, and the observer
    list. *)
Record SpotOrder : Type := mkSpotOrder {
  CltOrderId : string;
  Dir : OrderDir;
  OrderPrice : Decimal;
  Size : Decimal;
  MakeOnly : bool;
  Purpose : string;
  Finished : bool;
  observers : list OrderObserver
}.

Definition GetDir (o : SpotOrder) : OrderDir := Dir o.

(** Modelled from the spec: [AddObserver] of the order (its source file
    is not part of the sources at hand).  Section 4.3: it "registers a
    fill/state-change observer; must support multiple observers with
    deterministic, insertion-ordered callback delivery". *)
Definition AddObserver (ob : OrderObserver) (o : SpotOrder) : SpotOrder :=
  {| CltOrderId := CltOrderId o; Dir := Dir o; OrderPrice := OrderPrice o;
     Size := Size o; MakeOnly := MakeOnly o; Purpose := Purpose o;
     Finished := Finished o;
     observers := observers o ++ [ob] |}.

(** [common.Deal]. *)
Record Deal : Type := mkDeal {
  O : SpotOrder;
  Amount : Decimal;
  Price : Decimal;
  UTime : Time
}.

Record SpotTrader : Type := mkSpotTrader {
  market : M;
  stratergyId : Z;
  logPrefix : string;
  (* the two balance pointers: [FindBalance] hands out the one
     [BalanceImpl] of a currency, so a pointer is the currency *)
  baseBalance : string;
  quoteBalance : string;
  orders : gmap string SpotOrder;     (* clientId-order *)
  errorlock : bool;
  finished : bool
}.

(** Calls that leave the modelled state. *)
Inductive Effect : Type :=
| LogInfo (prefix msg : string)
| LogPanic (prefix msg : string)
| LogImportant (prefix msg : string)
| Sleep (d : Duration)
| Go (cid : string)                       (* [o.Go()] *)
| ObserverOnDeal (obs : Obs) (deal : Deal)
                 (baseRights quoteRights : Decimal)
            (* [OnDeal] of a caller's observer, and the rights of the
               trader's two balances at the moment of the call *)
| UnregSpotOrderSnapshot (inst : string)
| MarketUninit (inst : string).

(** Everything the trader's methods reach: the trader, the balance
    manager of the exchange, the package variable [exchangeReady], and
    the trace of effects so far (latest last). *)
Record World : Type := mkWorld {
  trader : SpotTrader;
  spotBalanceMgr : string -> BalanceImpl;
  exchangeReady : bool;
  trace : list Effect
}.

Definition with_trader (f : SpotTrader -> SpotTrader) (w : World) : World :=
  {| trader := f (trader w); spotBalanceMgr := spotBalanceMgr w;
     exchangeReady := exchangeReady w; trace := trace w |}.

Definition with_balances (f : (string -> BalanceImpl) -> string -> BalanceImpl)
           (w : World) : World :=
  {| trader := trader w; spotBalanceMgr := f (spotBalanceMgr w);
     exchangeReady := exchangeReady w; trace := trace w |}.

Definition emit (e : Effect) (w : World) : World :=
  {| trader := trader w; spotBalanceMgr := spotBalanceMgr w;
     exchangeReady := exchangeReady w; trace := trace w ++ [e] |}.

Definition set_orders (f : gmap string SpotOrder -> gmap string SpotOrder)
           (t : SpotTrader) : SpotTrader :=
  {| market := market t; stratergyId := stratergyId t;
     logPrefix := logPrefix t;
     baseBalance := baseBalance t; quoteBalance := quoteBalance t;
     orders := f (orders t);
     errorlock := errorlock t; finished := finished t |}.

Definition set_errorlock (b : bool) (t : SpotTrader) : SpotTrader :=
  {| market := market t; stratergyId := stratergyId t;
     logPrefix := logPrefix t;
     baseBalance := baseBalance t; quoteBalance := quoteBalance t;
     orders := orders t;
     errorlock := b; finished := finished t |}.

Definition set_finished (b : bool) (t : SpotTrader) : SpotTrader :=
  {| market := market t; stratergyId := stratergyId t;
     logPrefix := logPrefix t;
     baseBalance := baseBalance t; quoteBalance := quoteBalance t;
     orders := orders t;
     errorlock := errorlock t; finished := b |}.

Definition set_market (m : M) (t : SpotTrader) : SpotTrader :=
  {| market := m; stratergyId := stratergyId t;
     logPrefix := logPrefix t;
     baseBalance := baseBalance t; quoteBalance := quoteBalance t;
     orders := orders t;
     errorlock := errorlock t; finished := finished t |}.

(** [b.RecordTempRights(delta, at)] through the pointer [ptr]. *)
Definition recordTempRights (ptr : string) (delta : Decimal) (at_ : Time)
  : World -> World :=
  with_balances (fun mgr => <[ptr := RecordTempRights delta at_ (mgr ptr)]> mgr).

Definition baseRights (w : World) : Decimal :=
  Rights (spotBalanceMgr w (baseBalance (trader w))).

Definition quoteRights (w : World) : Decimal :=
  Rights (spotBalanceMgr w (quoteBalance (trader w))).

(** Modelled from the spec: [spotBalanceMgr.FindBalance] (its source file
    is not part of the sources at hand).  Section 3: a balance is "one
    instance per currency per venue connection, shared (read-only) across
    all traders referencing that currency"; the pointer handed out for a
    currency is therefore represented by the currency. *)
Definition FindBalance (ccy : string) : string := ccy.

(** ** Init (the assignments; the two closures follow below) *)
Definition Init (pkgLogPrefix : string) (stratergyId : Z) (m : M)
           (t : SpotTrader) : SpotTrader :=
  {| market := m;
     stratergyId := stratergyId;
     logPrefix := pkgLogPrefix +:+ "-Trader-" +:+ instId m;
     baseBalance := FindBalance (BaseCurrency m);
     quoteBalance := FindBalance (QuoteCurrency m);
     orders := ∅;
     errorlock := errorlock t;
     finished := false |}.

(** How a call ends: it returns, or a panic unwinds it.  Either way
    the assignments made so far stay in the world. *)
Inductive Outcome : Type :=
| Returned (w : World)
| Panicked (w : World).

Definition world_of (r : Outcome) : World :=
  match r with Returned w => w | Panicked w => w end.

(** Sequencing: what follows a call runs only if the call returns. *)
Definition andThen (r : Outcome) (f : World -> Outcome) : Outcome :=
  match r with
  | Returned w => f w
  | Panicked w => Panicked w
  end.

(** ** OnDeal

    The base balance is written first; the product for the quote balance
    is computed after that, and [Decimal.Mul] can panic. *)
Definition OnDeal (deal : Deal) (w : World) : Outcome :=
  let t := trader w in
  if bool_decide (GetDir (O deal) = OrderDir_Buy) then
    let w := recordTempRights (baseBalance t) (Amount deal) (UTime deal) w in
    match Mul (Amount deal) (Price deal) with
    | Some product =>
        Returned (recordTempRights (quoteBalance t) (Neg product) (UTime deal) w)
    | None => Panicked w
    end
  else if bool_decide (GetDir (O deal) = OrderDir_Sell) then
    let w := recordTempRights (baseBalance t) (Neg (Amount deal)) (UTime deal) w in
    match Mul (Amount deal) (Price deal) with
    | Some product =>
        Returned (recordTempRights (quoteBalance t) product (UTime deal) w)
    | None => Panicked w
    end
  else Returned w.

(** ** Ready, UnreadyReason *)
Definition Ready (w : World) : bool :=
  let t := trader w in
  let '(baseBalOk, _) := common.Ready (spotBalanceMgr w (baseBalance t)) in
  let '(quoteBalOk, _) := common.Ready (spotBalanceMgr w (quoteBalance t)) in
  market_Ready (market t) && baseBalOk && quoteBalOk
    && exchangeReady w && negb (errorlock t).

Definition UnreadyReason (w : World) : string :=
  let t := trader w in
  if negb (market_Ready (market t)) then market_UnreadyReason (market t)
  else
    let '(ok, reason) := common.Ready (spotBalanceMgr w (baseBalance t)) in
    if negb ok then
      "base balance(" +:+ Ccy (spotBalanceMgr w (baseBalance t))
        +:+ ") not ready: " +:+ reason
    else
      let '(ok, reason) := common.Ready (spotBalanceMgr w (quoteBalance t)) in
      if negb ok then
        "quote balance(" +:+ Ccy (spotBalanceMgr w (quoteBalance t))
          +:+ ") not ready: " +:+ reason
      else if negb (exchangeReady w) then "exchange not ready"
      else "".

(** ** The parts of the package outside the sources at hand

    [SpotOrder.Init] is called on a fresh order with the trader and the
    arguments shown; it reaches everything the trader reaches, fills in
    the order (client order id included) and reports success
    ([None] is its [false] result).  [SpotOrder.onSnapshot] advances
    one order by one snapshot and yields the deals that are new.
    [logger.LogPanic] writes its line and then either returns or
    panics: [LogPanic_returns] keeps both possibilities. *)
Class Package : Type := {
  SpotOrder_Init :
    World -> Decimal -> Decimal -> OrderDir -> bool -> string ->
    option SpotOrder;
  SpotOrder_onSnapshot : OrderSnapshot -> SpotOrder -> SpotOrder * list Deal;
  LogPanic_returns : bool
}.

Context `{!Package}.

Definition logger_LogPanic (prefix msg : string) (w : World) : Outcome :=
  let w := emit (LogPanic prefix msg) w in
  if LogPanic_returns then Returned w else Panicked w.

(** ** Deal fan-out *)

(** Modelled from the spec: the order's delivery of deals to its
    observers (part of the order's source file, which is not part of the
    sources at hand).  Section 4.3: [onSnapshot] "invokes [OnDeal] on
    every observer for each new deal", with "insertion-ordered callback
    delivery".  The trader's [OnDeal] is the function above; the
    [OnDeal] of a caller's observer is strategy code and is recorded
    in the trace, with the rights that it would read at that moment. *)
Definition notify (deal : Deal) (w : World) (ob : OrderObserver) : Outcome :=
  match ob with
  | ObsTrader => OnDeal deal w
  | ObsExternal obs =>
      Returned (emit (ObserverOnDeal obs deal (baseRights w) (quoteRights w)) w)
  end.

(** Modelled from the spec: one deal goes to the observers in the order
    of their registration (section 4.3, as above); a panic of one observer
    ends the delivery. *)
Definition fanout (obs : list OrderObserver) (w : World) (deal : Deal) : Outcome :=
  foldl (fun r ob => andThen r (fun w => notify deal w ob)) (Returned w) obs.

(** Modelled from the spec: the new deals of one snapshot are delivered
    one after the other (section 4.3, as above). *)
Definition deliver (o : SpotOrder) (deals : list Deal) (w : World) : Outcome :=
  foldl (fun r deal => andThen r (fun w => fanout (observers o) w deal))
        (Returned w) deals.

(** ** Init: the order-snapshot callback

    [stratergyId] is the variable the closure captures.  The looked-up
    order is a pointer held by the map, so what [onSnapshot] does to
    the order is seen through the map. *)

(** The second half of the callback: the snapshot is handed to the order
    it names, if the map holds it. *)
Definition routeSnapshot (os : OrderSnapshot) (w : World) : Outcome :=
  match orders (trader w) !! ClientOrderID os with
  | Some o =>
      let '(o', deals) := SpotOrder_onSnapshot os o in
      let w := with_trader (set_orders <[ClientOrderID os := o']>) w in
      deliver o' deals w
  | None => Returned w
  end.

Definition onOrderSnapshot (stratergyId : Z) (os : OrderSnapshot) (w : World)
  : Outcome :=
  let r :=
    if bool_decide (0 < StratergyId os)%Z
       && bool_decide (StratergyId os ≠ stratergyId)
    then
      let w := with_trader (set_errorlock true) w in
      logger_LogPanic (logPrefix (trader w))
                      "found order from other stratergy!" w
    else Returned w in
  andThen r (routeSnapshot os).

(** ** Init: the clean-up goroutine

    The body of the [range] loop, run over the entries in the order
    [visit] in which the runtime produces them.  Only the entry being
    visited is ever deleted, so every entry of the map is produced
    once, in an order the language leaves open. *)
Definition sweepStep (acc : gmap string SpotOrder) (entry : string * SpotOrder)
  : gmap string SpotOrder :=
  let '(cid, o) := entry in
  if Finished o then delete cid acc else acc.

Definition sweepOver (visit : list (string * SpotOrder))
           (m : gmap string SpotOrder) : gmap string SpotOrder :=
  foldl sweepStep m visit.

Definition sweepOrders (m : gmap string SpotOrder) : gmap string SpotOrder :=
  sweepOver (map_to_list m) m.

(** One turn of [for !t.finished { ... }]: the map is swept between
    [Lock] and [Unlock], then the goroutine sleeps. *)
Definition sweep (w : World) : World :=
  if finished (trader w) then w
  else emit (Sleep Second) (with_trader (set_orders sweepOrders) w).

(** ** Uninit *)
Definition Uninit (pkgLogPrefix : string) (w : World) : World :=
  let w := with_trader (set_finished true) w in
  let inst := instId (market (trader w)) in
  let w := emit (UnregSpotOrderSnapshot inst) w in
  let w := emit (MarketUninit inst) w in
  emit (LogImportant pkgLogPrefix ("spot trader(" +:+ inst +:+ ") uninited")) w.

(** ** MakeOrder

    The result is the order pointer ([None] for [nil]); the new order is
    shared with the map, so the observers added after the insertion are
    added to the order the map holds. *)
Definition MakeOrder (price amount : Decimal) (dir : OrderDir)
           (makeOnly reduceOnly : bool) (purpose : string) (obs : Obs)
           (w : World) : option SpotOrder * World :=
  if Ready w then
    match SpotOrder_Init w price amount dir makeOnly purpose with
    | Some o =>
        let cid := CltOrderId o in
        let w := with_trader (set_orders <[cid := o]>) w in
        let w := with_trader (set_orders (alter (AddObserver ObsTrader) cid)) w in
        let w := with_trader
                   (set_orders (alter (AddObserver (ObsExternal obs)) cid)) w in
        let w := emit (Go cid) w in
        (orders (trader w) !! cid, w)
    | None => (None, w)
    end
  else
    let w := emit (LogInfo (logPrefix (trader w))
                           ("trader not ready, can't Makeorder. reason="
                              +:+ UnreadyReason w)) w in
    let w := emit (Sleep Second) w in
    (None, w).

(** ** Orders

    The orders of the map, in the order in which the runtime produces the
    entries. *)
Definition Orders (w : World) : list SpotOrder :=
  (map_to_list (orders (trader w))).*2.

(** ** The trader's life after Init

    What can happen to a trader, one event at a time: the exchange
    delivers an order snapshot, the clean-up goroutine takes a turn,
    the strategy calls [MakeOrder] or [Uninit], and the rest of the
    process changes what the trader only reads: the market (feeds), the
    balances (account snapshots) and [exchangeReady]. *)
Inductive Event : Type :=
| EvSnapshot (os : OrderSnapshot)
| EvSweep
| EvMakeOrder (price amount : Decimal) (dir : OrderDir)
              (makeOnly reduceOnly : bool) (purpose : string) (obs : Obs)
| EvUninit (pkgLogPrefix : string)
| EvMarket (m : M)
| EvBalances (mgr : string -> BalanceImpl)
| EvExchangeReady (b : bool).

Definition step (w : World) (e : Event) : Outcome :=
  match e with
  | EvSnapshot os => onOrderSnapshot (stratergyId (trader w)) os w
  | EvSweep => Returned (sweep w)
  | EvMakeOrder price amount dir makeOnly reduceOnly purpose obs =>
      Returned (MakeOrder price amount dir makeOnly reduceOnly purpose obs w).2
  | EvUninit pkgLogPrefix => Returned (Uninit pkgLogPrefix w)
  | EvMarket m => Returned (with_trader (set_market m) w)
  | EvBalances mgr => Returned (with_balances (fun _ => mgr) w)
  | EvExchangeReady b =>
      Returned {| trader := trader w; spotBalanceMgr := spotBalanceMgr w;
                  exchangeReady := b; trace := trace w |}
  end.

(** The world after a sequence of events; a panic ends the run. *)
Fixpoint run (evs : list Event) (w : World) : World :=
  match evs with
  | [] => w
  | e :: evs =>
      match step w e with
      | Returned w' => run evs w'
      | Panicked w' => w'
      end
  end.

(** The events that set the error lock: a snapshot with the positive id
    of another strategy. *)
Definition foreign (stratergyId : Z) (e : Event) : bool :=
  match e with
  | EvSnapshot os =>
      bool_decide (0 < StratergyId os)%Z
      && bool_decide (StratergyId os ≠ stratergyId)
  | _ => false
  end.

End Trader.

Arguments OrderObserver : clear implicits.
Arguments SpotOrder : clear implicits.
Arguments Deal : clear implicits.
Arguments SpotTrader : clear implicits.
Arguments Effect : clear implicits.
Arguments World : clear implicits.
Arguments Package : clear implicits.
Arguments Outcome : clear implicits.
Arguments Event : clear implicits.


End binance.

(* ===================================================================== *)
(** * api/binancespotapi: the REST calls of the spot API                  *)
(* ===================================================================== *)

Module binancespotapi.

(** [int64] arithmetic wraps around. *)
Definition int64 (z : Z) : Z := ((z + 2 ^ 63) mod 2 ^ 64 - 2 ^ 63)%Z.

(** How a call ends: with a value, or in the panic of [logger.LogPanic]
    (which is outside the sources at hand and may also return). *)
Inductive Result (A : Type) : Type :=
| Done (a : A)
| Panics.

Arguments Done {A} a.
Arguments Panics {A}.

(** [url.Values] as far as [Set] is concerned: one value per key. *)
Abbreviation Values := (gmap string string).

Section Api.

Variable LogPanic_returns : bool.

(** ** The parameters of CancelOrder and GetOrder

    Both functions build their request parameters in the same way before
    they sign and send them: the symbol, then the exchange order id when
    it is positive, else the client order id when it is not empty; with
    neither, [logger.LogPanic] is called, and the request goes out with
    the symbol alone if that call returns. *)
Definition orderParams (symbol : string) (orderId : Z) (clientOrderId : string)
  : Result Values :=
  let params : Values := <["symbol" := symbol]> ∅ in
  if bool_decide (0 < orderId)%Z then
    Done (<["orderId" := pretty orderId]> params)
  else if bool_decide (0 < String.length clientOrderId)%nat then
    Done (<["origClientOrderId" := clientOrderId]> params)
  else if LogPanic_returns then Done params
  else Panics.

Definition CancelOrder_params := orderParams.
Definition GetOrder_params := orderParams.

(** ** The server clock

    [resp] is what the time request yields: the server time in
    milliseconds, or [None] for an error. *)
Definition GetServerTs (resp : option Z) : Result Z :=
  match resp with
  | Some ServerTime => Done ServerTime
  | None => if LogPanic_returns then Done 0%Z else Panics
  end.

(** [ServerTs], threading the package variable [serverTsDelta]; [now1]
    and [now2] are the two readings of the local clock.  The result is
    the value returned and the new [serverTsDelta]. *)
Definition ServerTs (resp : option Z) (now1 now2 : Z) (serverTsDelta : Z)
  : Result (Z * Z) :=
  if bool_decide (serverTsDelta = 0%Z) then
    match GetServerTs resp with
    | Done sts =>
        let delta :=
          if bool_decide (sts <> 0%Z) then int64 (sts - now1) else serverTsDelta in
        Done (int64 (now2 + delta), delta)
    | Panics => Panics
    end
  else Done (int64 (now2 + serverTsDelta), serverTsDelta).

(** The tail of [GetExchangeInfo_RateLimit] and [GetExchangeInfo_Symbols]:
    a successful response sets [serverTsDelta] if it is still zero. *)
Definition GetExchangeInfo_sync (resp : option Z) (now : Z) (serverTsDelta : Z) : Z :=
  match resp with
  | Some ServerTime =>
      if bool_decide (serverTsDelta = 0%Z) then int64 (ServerTime - now)
      else serverTsDelta
  | None => serverTsDelta
  end.

(** The calls that touch [serverTsDelta]. *)
Inductive Call : Type :=
| CallServerTs (resp : option Z) (now1 now2 : Z)
| CallGetExchangeInfo (resp : option Z) (now : Z).

Definition call (c : Call) (serverTsDelta : Z) : Result Z :=
  match c with
  | CallServerTs resp now1 now2 =>
      match ServerTs resp now1 now2 serverTsDelta with
      | Done r => Done r.2
      | Panics => Panics
      end
  | CallGetExchangeInfo resp now => Done (GetExchangeInfo_sync resp now serverTsDelta)
  end.

(** [serverTsDelta] after a sequence of calls. *)
Fixpoint calls (cs : list Call) (serverTsDelta : Z) : Result Z :=
  match cs with
  | [] => Done serverTsDelta
  | c :: cs =>
      match call c serverTsDelta with
      | Done d => calls cs d
      | Panics => Panics
      end
  end.

End Api.

End binancespotapi.

(* ===================================================================== *)
(** * Concrete instances used in the examples                             *)
(* ===================================================================== *)

Module Examples.

Import binance.

(** A strategy observer is identified by a name. *)
Definition Obs : Type := string.

Definition btc_usdt (depth : bool) : okexv5.SpotMarket.t :=
  okexv5.SpotMarket.mk (okexv5.mkCommonMarket "BTC-USDT" depth) "BTC" "USDT".

(** Every currency has its balance; all are ready or none is. *)
Definition balances (ok : bool) : string -> BalanceImpl :=
  fun c => mkBalance c 0 0 [] ok (if ok then "" else "no account snapshot yet").

Definition trader0 (depth lock : bool) : SpotTrader okexv5.SpotMarket.t Obs :=
  set_errorlock lock
    (Init "binance" 7 (btc_usdt depth)
          (mkSpotTrader (btc_usdt depth) 0 "" "" "" ∅ false false)).

Definition world0 (depth balOk exOk lock : bool)
  : World okexv5.SpotMarket.t Obs :=
  mkWorld (trader0 depth lock) (balances balOk) exOk [].

(** An order package that accepts every order under one client id,
    reports no deals, and whose [LogPanic] returns. *)
Definition package0 : Package okexv5.SpotMarket.t Obs := {|
  SpotOrder_Init := fun _ price amount dir makeOnly purpose =>
    Some (mkSpotOrder "cid-1" dir price amount makeOnly purpose false []);
  SpotOrder_onSnapshot := fun _ o => (o, []);
  LogPanic_returns := true
|}.

Definition order (cid : string) (fin : bool) : SpotOrder Obs :=
  mkSpotOrder cid OrderDir_Buy (NewFromInt 100) 1 false "test" fin [].

Definition three_orders : gmap string (SpotOrder Obs) :=
  <["a" := order "a" true]>
    (<["b" := order "b" false]> (<["c" := order "c" true]> ∅)).

(** A deal of the order ["cid-1"]: buy 2 at 50000. *)
Definition buy_deal : Deal Obs :=
  mkDeal (mkSpotOrder "cid-1" OrderDir_Buy (NewFromInt 50000) (NewFromInt 2)
                      false "test" false [])
         (NewFromInt 2) (NewFromInt 50000) 1700000000000%Z.


(** A running trader with the three orders in its map. *)
Definition sweep_world : World okexv5.SpotMarket.t Obs :=
  with_trader (set_orders (fun _ => three_orders)) (world0 true true true false).

(** A [CommonOrder.Init] that accepts every order and stores direction,
    amount and the reduce-only flag in the fields of those names. *)
Definition CommonOrder_Init_store (c : okexv5.ContractOrder.CommonOrder)
           (tr : okexv5.ContractOrder.FutureTrader) (inst : string)
           (price amount : Decimal) (dir : OrderDir)
           (makeOnly reduceOnly : bool) (purpose : string)
  : okexv5.ContractOrder.CommonOrder * bool :=
  (okexv5.ContractOrder.mkCommonOrder
     (okexv5.ContractOrder.CltOrderId c) purpose dir amount reduceOnly
     (okexv5.ContractOrder.hooks c),
   true).

(** A hedge-mode futures trader without any position. *)
Definition flat_trader : okexv5.ContractOrder.FutureTrader :=
  okexv5.ContractOrder.mkFutureTrader "BTC-USDT-SWAP" "long_short_mode" "cross" 0 0.

Definition blank_contract_order : okexv5.ContractOrder.t :=
  okexv5.ContractOrder.mk
    (okexv5.ContractOrder.mkCommonOrder "" "" OrderDir_Unknown 0 false false)
    flat_trader.

(** An order package whose [Init] turns every order down. *)
Definition package_reject : Package okexv5.SpotMarket.t Obs := {|
  SpotOrder_Init := fun _ _ _ _ _ _ => None;
  SpotOrder_onSnapshot := fun _ o => (o, []);
  LogPanic_returns := true
|}.

(** A snapshot of the trader's own strategy for an order it does not
    hold. *)
Definition unknown_snapshot : OrderSnapshot :=
  mkOrderSnapshot 7 "cid-9" "FILLED" 1 (NewFromInt 100) 1700000000000%Z.

(** A snapshot of the trader's own strategy for the order ["b"]. *)
Definition snapshot_b : OrderSnapshot :=
  mkOrderSnapshot 7 "b" "NEW" 0 0 1700000000000%Z.

(** A day in the life of the trader: an order, its snapshot, a sweep, a
    change of connectivity, the shutdown, another sweep. *)
Definition quiet_day : list (Event okexv5.SpotMarket.t Obs) :=
  [EvMakeOrder (NewFromInt 100) 1 OrderDir_Buy false false "test" "strategy";
   EvSnapshot (mkOrderSnapshot 7 "cid-1" "NEW" 0 0 1700000000000%Z);
   EvSweep; EvExchangeReady false; EvUninit "binance"; EvSweep].

(** The feeds of a perpetual swap coming up one after the other. *)
Definition swap_feeds : list okexv5.FutureMarket.Feed :=
  [okexv5.FutureMarket.CommonFeed (okexv5.mkCommonMarket "BTC-USDT-SWAP" true);
   okexv5.FutureMarket.MarkPriceResp (NewFromInt 100);
   okexv5.FutureMarket.PriceLimitResp (NewFromInt 80) (NewFromInt 120);
   okexv5.FutureMarket.PriceLimitTimeout;
   okexv5.FutureMarket.PriceLimitREST true (NewFromInt 90) (NewFromInt 110);
   okexv5.FutureMarket.FundingRateResp 0 0 1700000000000%Z 0%Z].

(** The feeds of a dated future: there is no funding feed. *)
Definition future_feeds : list okexv5.FutureMarket.Feed :=
  [okexv5.FutureMarket.MarkPriceResp (NewFromInt 100);
   okexv5.FutureMarket.PriceLimitResp (NewFromInt 80) (NewFromInt 120);
   okexv5.FutureMarket.MarkPriceTimeout].

(** A number rounding that finds its number on the grid already. *)
Definition number_on_grid : okexv5.CommonMarket -> Decimal -> Decimal :=
  fun _ price => price.

(** A deal whose amount and price have exponents that do not add up to
    an [int32]: 10^2147483647 units at a price of 10. *)
Definition overflow_deal : Deal Obs :=
  mkDeal (mkSpotOrder "cid-1" OrderDir_Buy (mkDecimal 1 1) (mkDecimal 1 MaxInt32)
                      false "test" false [])
         (mkDecimal 1 MaxInt32) (mkDecimal 1 1) 1700000000000%Z.

(** A trader on a market whose base and quote currency are the same, so
    that its two balance pointers are one balance. *)
Definition alias_world : World okexv5.SpotMarket.t Obs :=
  mkWorld
    (Init "binance" 7
          (okexv5.SpotMarket.mk (okexv5.mkCommonMarket "BTC-BTC" true) "BTC" "BTC")
          (mkSpotTrader (btc_usdt true) 0 "" "" "" ∅ false false))
    (balances true) true [].

(** A derivative market right after [Init]: no price-limit response has
    arrived yet. *)
Definition fresh_swap : okexv5.FutureMarket.t :=
  okexv5.FutureMarket.Init (okexv5.mkCommonMarket "BTC-USDT-SWAP" true)
                           "BTC-USDT-SWAP" okexv5.FutureMarket.zero.

(** A tick-size alignment that finds its price on the grid already. *)
Definition on_grid : okexv5.CommonMarket -> Decimal -> OrderDir -> bool -> Decimal :=
  fun _ price _ _ => price.

End Examples.

(* ===================================================================== *)
(** * Market readiness                                                    *)
(* ===================================================================== *)

(** C1. Readiness AND law: the spot market is ready exactly when its depth
    flag is set; the derivative market is ready exactly when all four of
    depthOK, markpriceOK, priceLimitOK and fundingFeeOK are set, for every
    combination of the flags. *)
Theorem C1_market_ready_and_law :
  (forall (cm : okexv5.CommonMarket) (baseCcy quoteCcy : string),
      okexv5.SpotMarket.Ready (okexv5.SpotMarket.mk cm baseCcy quoteCcy)
      = okexv5.depthOK cm)
  /\ (forall (m : okexv5.SpotMarket.t),
         okexv5.SpotMarket.Ready m = true <-> okexv5.depthOK (okexv5.SpotMarket.base m) = true)
  /\ (forall (inst : string) (depth mark limit funding : bool)
             (p1 p2 p3 p4 p5 : Decimal) (t1 t2 : Time),
         okexv5.FutureMarket.Ready
           (okexv5.FutureMarket.mk (okexv5.mkCommonMarket inst depth)
              p1 p2 p3 p4 p5 t1 t2 mark limit funding)
         = depth && mark && limit && funding)
  /\ (forall (m : okexv5.FutureMarket.t),
         okexv5.FutureMarket.Ready m = true <->
         okexv5.depthOK (okexv5.FutureMarket.base m) = true
         /\ okexv5.FutureMarket.markpriceOK m = true
         /\ okexv5.FutureMarket.priceLimitOK m = true
         /\ okexv5.FutureMarket.fundingFeeOK m = true).
Proof.
  split; [reflexivity|].
  split; [intros m; reflexivity|].
  split.
  - intros inst depth mark limit funding p1 p2 p3 p4 p5 t1 t2.
    unfold okexv5.FutureMarket.Ready; simpl.
    destruct depth, mark, limit, funding; reflexivity.
  - intros m. unfold okexv5.FutureMarket.Ready.
    rewrite !andb_true_iff. tauto.
Qed.

(* ===================================================================== *)
(** * Decimals and the numbers they denote                                *)
(* ===================================================================== *)

Lemma ten_not_0 : ~ ((10 # 1) == 0)%Q.
Proof. discriminate. Qed.

Lemma toQ_Neg (d : Decimal) : (toQ (Neg d) == - toQ d)%Q.
Proof. unfold toQ, Neg; simpl. rewrite inject_Z_opp. ring. Qed.

Lemma toQ_rescale_down (e : Z) (d : Decimal) :
  (e <= exp d)%Z -> (toQ (rescale e d) == toQ d)%Q.
Proof.
  intros He. unfold rescale. case_bool_decide as H1; [reflexivity|].
  rewrite bool_decide_eq_false_2 by lia. unfold toQ; simpl.
  rewrite inject_Z_mult, Zpower_Qpower by lia.
  change (inject_Z 10) with (10 # 1).
  replace (exp d) with ((exp d - e) + e)%Z at 2 by lia.
  rewrite (Qpower_plus _ (exp d - e) e ten_not_0). ring.
Qed.

Lemma toQ_Add (d d2 : Decimal) : (toQ (Add d d2) == toQ d + toQ d2)%Q.
Proof.
  unfold Add, RescalePair.
  case_bool_decide as Heq.
  - unfold toQ; simpl. rewrite inject_Z_plus, Heq. ring.
  - case_bool_decide as Hmin.
    + assert (Hle : (exp d2 <= exp d)%Z) by lia.
      rewrite Z.min_r by done.
      pose proof (toQ_rescale_down (exp d2) d Hle) as Hr.
      assert (He : exp (rescale (exp d2) d) = exp d2).
      { unfold rescale. rewrite bool_decide_eq_false_2 by done.
        by case_bool_decide. }
      rewrite <- Hr. unfold toQ; simpl. rewrite inject_Z_plus, He. ring.
    + assert (Hle : (exp d <= exp d2)%Z) by lia.
      rewrite Z.min_l by done.
      pose proof (toQ_rescale_down (exp d) d2 Hle) as Hr.
      rewrite <- Hr. unfold toQ at 1 2. simpl.
      assert (He : exp (rescale (exp d) d2) = exp d).
      { unfold rescale. rewrite bool_decide_eq_false_2 by done.
        by case_bool_decide. }
      unfold toQ. rewrite inject_Z_plus, He. ring.
Qed.

Lemma toQ_Mul (d d2 product : Decimal) :
  Mul d d2 = Some product -> (toQ product == toQ d * toQ d2)%Q.
Proof.
  unfold Mul. case_bool_decide; [discriminate|]. intros [= <-].
  unfold toQ; simpl.
  rewrite inject_Z_mult, (Qpower_plus _ (exp d) (exp d2) ten_not_0). ring.
Qed.

(** [Add] and [Neg] are exact, and so is [Mul] when it returns. *)
Lemma toQc_Add (d d2 : Decimal) : toQc (Add d d2) = toQc d + toQc d2.
Proof.
  unfold toQc, Qcplus. apply Q2Qc_eq_iff. simpl.
  rewrite !Qred_correct. apply toQ_Add.
Qed.

Lemma toQc_Neg (d : Decimal) : toQc (Neg d) = - toQc d.
Proof.
  unfold toQc, Qcopp. apply Q2Qc_eq_iff. simpl.
  rewrite Qred_correct. apply toQ_Neg.
Qed.

Lemma toQc_Mul (d d2 product : Decimal) :
  Mul d d2 = Some product -> toQc product = toQc d * toQc d2.
Proof.
  intros H. unfold toQc, Qcmult. apply Q2Qc_eq_iff. simpl.
  rewrite !Qred_correct. by apply toQ_Mul.
Qed.

(** A Decimal with a coefficient other than zero denotes a number other
    than zero. *)
Lemma toQc_nonzero (d : Decimal) : value d <> 0%Z -> toQc d <> Q2Qc 0.
Proof.
  intros Hv H. unfold toQc in H. apply Q2Qc_eq_iff in H. unfold toQ in H.
  apply Qmult_integral in H as [H|H].
  - apply Hv. unfold Qeq in H. simpl in H. lia.
  - by apply (Qpower_not_0 _ (exp d) ten_not_0).
Qed.

(** [Mul] returns exactly when the sum of the exponents is an [int32]. *)
Lemma Mul_Some (d d2 : Decimal) :
  (MinInt32 <= exp d + exp d2 <= MaxInt32)%Z ->
  Mul d d2 = Some (mkDecimal (value d * value d2) (exp d + exp d2)).
Proof. intros H. unfold Mul. rewrite bool_decide_eq_false_2; [done | lia]. Qed.

(* ===================================================================== *)
(** * The balance ledger                                                  *)
(* ===================================================================== *)

Lemma Rights_RecordTempRights (delta : Decimal) (at_ : Time) (b : BalanceImpl) :
  toQc (Rights (RecordTempRights delta at_ b)) = toQc (Rights b) + toQc delta.
Proof.
  unfold Rights, RecordTempRights; simpl. rewrite toQc_Add. apply Qcplus_comm.
Qed.

Lemma Ready_RecordTempRights (delta : Decimal) (at_ : Time) (b : BalanceImpl) :
  common.Ready (RecordTempRights delta at_ b) = common.Ready b.
Proof. reflexivity. Qed.

(* ===================================================================== *)
(** * The spot trader                                                     *)
(* ===================================================================== *)

Section TraderFacts.

Import binance.

Context {M : Type} `{!SpotMarket M} {Obs : Type} `{!Package M Obs}.

Implicit Types (w : World M Obs) (t : SpotTrader M Obs)
         (o : SpotOrder Obs) (deal : Deal Obs).

(** ** Frame facts: what each operation leaves alone *)

Lemma recordTempRights_trader ptr delta at_ w :
  trader (recordTempRights ptr delta at_ w) = trader w.
Proof. reflexivity. Qed.

Lemma recordTempRights_same ptr delta at_ w :
  toQc (Rights (spotBalanceMgr (recordTempRights ptr delta at_ w) ptr))
  = toQc (Rights (spotBalanceMgr w ptr)) + toQc delta.
Proof.
  unfold recordTempRights, with_balances; simpl.
  rewrite fn_lookup_insert. apply Rights_RecordTempRights.
Qed.

Lemma recordTempRights_other ptr ptr' delta at_ w :
  ptr <> ptr' ->
  spotBalanceMgr (recordTempRights ptr delta at_ w) ptr' = spotBalanceMgr w ptr'.
Proof.
  intros Hne. unfold recordTempRights, with_balances; simpl.
  by rewrite fn_lookup_insert_ne.
Qed.

(** What holds of the world before a call and is kept by every step of
    the call holds of the world the call leaves, however it ends. *)
Lemma andThen_world (P : World M Obs -> Prop) r (f : World M Obs -> Outcome M Obs) :
  P (world_of r) ->
  (forall w, P w -> P (world_of (f w))) ->
  P (world_of (andThen r f)).
Proof. destruct r as [w|w]; simpl; auto. Qed.

Lemma foldl_andThen_world {A} (P : World M Obs -> Prop)
      (g : World M Obs -> A -> Outcome M Obs) (l : list A) r :
  P (world_of r) ->
  (forall w a, P w -> P (world_of (g w a))) ->
  P (world_of (foldl (fun r a => andThen r (fun w => g w a)) r l)).
Proof.
  intros Hr Hg. revert r Hr.
  induction l as [|a l IH]; intros r Hr; simpl; [done|].
  apply IH. apply andThen_world; [done|]. intros w Hw. by apply Hg.
Qed.

Lemma OnDeal_trader deal w : trader (world_of (OnDeal deal w)) = trader w.
Proof.
  unfold OnDeal. repeat case_bool_decide;
    try destruct (Mul (Amount deal) (Price deal)); reflexivity.
Qed.

Lemma OnDeal_exchangeReady deal w :
  exchangeReady (world_of (OnDeal deal w)) = exchangeReady w.
Proof.
  unfold OnDeal. repeat case_bool_decide;
    try destruct (Mul (Amount deal) (Price deal)); reflexivity.
Qed.

Lemma OnDeal_trace deal w : trace (world_of (OnDeal deal w)) = trace w.
Proof.
  unfold OnDeal. repeat case_bool_decide;
    try destruct (Mul (Amount deal) (Price deal)); reflexivity.
Qed.

Lemma notify_trader deal w ob : trader (world_of (notify deal w ob)) = trader w.
Proof. destruct ob; simpl; [apply OnDeal_trader | reflexivity]. Qed.

Lemma fanout_trader obs w deal : trader (world_of (fanout obs w deal)) = trader w.
Proof.
  unfold fanout.
  apply (foldl_andThen_world (fun w' => trader w' = trader w)); [done|].
  intros w' ob Hw'. by rewrite notify_trader.
Qed.

Lemma deliver_trader o deals w : trader (world_of (deliver o deals w)) = trader w.
Proof.
  unfold deliver.
  apply (foldl_andThen_world (fun w' => trader w' = trader w)); [done|].
  intros w' d Hw'. by rewrite fanout_trader.
Qed.


Lemma routeSnapshot_trader_but_orders os w :
  set_orders (fun _ => orders (trader w)) (trader (world_of (routeSnapshot os w)))
  = trader w.
Proof.
  unfold routeSnapshot.
  destruct (orders (trader w) !! ClientOrderID os) as [o|]; simpl;
    [|by destruct (trader w)].
  destruct (SpotOrder_onSnapshot os o) as [o' deals].
  rewrite deliver_trader. simpl. by destruct (trader w).
Qed.

(** ** Ready *)

Lemma Ready_spec w :
  Ready w
  = market_Ready (market (trader w))
    && ready (spotBalanceMgr w (baseBalance (trader w)))
    && ready (spotBalanceMgr w (quoteBalance (trader w)))
    && exchangeReady w
    && negb (errorlock (trader w)).
Proof. reflexivity. Qed.

Lemma Ready_errorlock w : errorlock (trader w) = true -> Ready w = false.
Proof.
  intros H. rewrite Ready_spec, H. simpl. apply andb_false_r.
Qed.

(** C8. The trader is ready if and only if its market is ready, its base
    balance is ready, its quote balance is ready, the exchange
    connectivity flag is set and the error lock is not set. *)
Theorem C8_trader_ready_iff w :
  Ready w = true <->
  market_Ready (market (trader w)) = true
  /\ (common.Ready (spotBalanceMgr w (baseBalance (trader w)))).1 = true
  /\ (common.Ready (spotBalanceMgr w (quoteBalance (trader w)))).1 = true
  /\ exchangeReady w = true
  /\ errorlock (trader w) = false.
Proof.
  rewrite Ready_spec, !andb_true_iff, negb_true_iff. simpl. tauto.
Qed.

(** C10. With the market, both balances and the exchange flag ready but
    the error lock set, [Ready] is false and [UnreadyReason] is the empty
    string: the error lock is not reported as a reason. *)
Theorem C10_error_lock_has_no_reason w :
  market_Ready (market (trader w)) = true ->
  (common.Ready (spotBalanceMgr w (baseBalance (trader w)))).1 = true ->
  (common.Ready (spotBalanceMgr w (quoteBalance (trader w)))).1 = true ->
  exchangeReady w = true ->
  errorlock (trader w) = true ->
  Ready w = false /\ UnreadyReason w = "".
Proof.
  intros Hm Hb Hq Hx Hl. split; [by apply Ready_errorlock|].
  unfold UnreadyReason. simpl in *. by rewrite Hm, Hb, Hq, Hx.
Qed.

(** ** MakeOrder *)

(** C4. On a trader that is not ready, [MakeOrder] returns nil, whatever
    its arguments; it logs the reason and sleeps one second, and nothing
    else happens: the live-order map (indeed the whole trader) and the
    balances are untouched, and no order is submitted. *)
Theorem C4_MakeOrder_not_ready price amount dir makeOnly reduceOnly purpose
        (obs : Obs) w :
  Ready w = false ->
  let r := MakeOrder price amount dir makeOnly reduceOnly purpose obs w in
  r.1 = None
  /\ orders (trader r.2) = orders (trader w)
  /\ trader r.2 = trader w
  /\ spotBalanceMgr r.2 = spotBalanceMgr w
  /\ exchangeReady r.2 = exchangeReady w
  /\ trace r.2
     = trace w ++ [LogInfo (logPrefix (trader w))
                           ("trader not ready, can't Makeorder. reason="
                              +:+ UnreadyReason w);
                   Sleep Second]
  /\ (forall cid, Go cid ∉ drop (length (trace w)) (trace r.2)).
Proof.
  intros Hr r. subst r. unfold MakeOrder. rewrite Hr. simpl.
  repeat (split; [reflexivity|]).
  split; [by rewrite <- app_assoc|].
  intros cid. rewrite <- app_assoc, drop_app_length. simpl.
  rewrite !elem_of_cons. intros [?|[?|?%elem_of_nil]]; done.
Qed.

(** C9. The spot trader's [MakeOrder] does not depend on [reduceOnly]:
    two calls that differ in that argument only return the same order and
    leave the same world (same map, same submission).  The contract
    order, in contrast, selects its position side from the flag. *)
Theorem C9_MakeOrder_ignores_reduceOnly price amount dir makeOnly
        (reduceOnly reduceOnly' : bool) purpose (obs : Obs) w :
  MakeOrder price amount dir makeOnly reduceOnly purpose obs w
  = MakeOrder price amount dir makeOnly reduceOnly' purpose obs w
  /\ (forall (LS cid purpose' : string) (tr_inst mode : string),
         let tr := okexv5.ContractOrder.mkFutureTrader tr_inst LS mode 0 0 in
         let o (ro : bool) :=
           okexv5.ContractOrder.mk
             (okexv5.ContractOrder.mkCommonOrder cid purpose' OrderDir_Buy 1 ro true)
             tr in
         okexv5.ContractOrder.getPosSide LS (o true) = "short"
         /\ okexv5.ContractOrder.getPosSide LS (o false) = "long").
Proof.
  split; [reflexivity|].
  intros LS cid purpose' tr_inst mode tr o.
  unfold okexv5.ContractOrder.getPosSide; simpl.
  rewrite !bool_decide_eq_true_2 by reflexivity.
  split; reflexivity.
Qed.

(** ** The clean-up sweep *)

Implicit Types (m : gmap string (SpotOrder Obs))
         (visit : list (string * SpotOrder Obs)).

(** The sweep only ever deletes. *)
Lemma sweepOver_Some visit m cid o :
  sweepOver visit m !! cid = Some o -> m !! cid = Some o.
Proof.
  unfold sweepOver. revert m.
  induction visit as [|[k o'] visit IH]; intros m; simpl; [done|].
  intros H%IH. destruct (Finished o'); [|done].
  by apply lookup_delete_Some in H as [_ ?].
Qed.

Lemma sweepOver_None visit m cid :
  m !! cid = None -> sweepOver visit m !! cid = None.
Proof.
  intros Hm. destruct (sweepOver visit m !! cid) as [o|] eqn:E; [|done].
  apply sweepOver_Some in E. congruence.
Qed.

(** A finished order that is visited is gone afterwards. *)
Lemma sweepOver_finished visit m cid o :
  (cid, o) ∈ visit -> Finished o = true -> sweepOver visit m !! cid = None.
Proof.
  unfold sweepOver. revert m.
  induction visit as [|[k o'] visit IH]; intros m Hin Hfin; simpl.
  - by apply elem_of_nil in Hin.
  - apply elem_of_cons in Hin as [Heq|Hin]; [|by apply IH].
    injection Heq as <- <-. rewrite Hfin.
    apply (sweepOver_None visit). apply lookup_delete_eq.
Qed.

(** An order none of whose visits finds it finished stays. *)
Lemma sweepOver_live visit m cid :
  (forall o, (cid, o) ∈ visit -> Finished o = false) ->
  sweepOver visit m !! cid = m !! cid.
Proof.
  unfold sweepOver. revert m.
  induction visit as [|[k o'] visit IH]; intros m Hall; simpl; [done|].
  rewrite IH by (intros o Ho; apply Hall; by right).
  destruct (Finished o') eqn:Hfin; [|done].
  destruct (decide (k = cid)) as [->|Hne].
  - rewrite (Hall o') in Hfin by left. done.
  - by apply lookup_delete_ne.
Qed.

(** Whatever the order of the visit, the sweep is the filter. *)
Lemma sweepOver_filter visit m :
  visit ≡ₚ map_to_list m ->
  sweepOver visit m = filter (fun e => Finished e.2 = false) m.
Proof.
  intros Hperm. apply map_eq. intros cid.
  destruct (m !! cid) as [o|] eqn:Hm.
  - destruct (Finished o) eqn:Hfin.
    + rewrite (sweepOver_finished visit m cid o); [| |done].
      * symmetry. apply map_lookup_filter_None. right.
        intros o' Ho'. simpl. congruence.
      * rewrite Hperm. by apply elem_of_map_to_list.
    + rewrite sweepOver_live.
      * rewrite Hm. symmetry. by apply map_lookup_filter_Some.
      * intros o' Ho'. rewrite Hperm in Ho'.
        apply elem_of_map_to_list in Ho'. congruence.
  - rewrite sweepOver_None by done.
    symmetry. apply map_lookup_filter_None. by left.
Qed.

(** C7. One turn of the clean-up loop removes from the live-order map
    exactly the orders whose [Finished] flag is set, in whatever order
    the map is traversed: the map afterwards holds precisely the orders
    that were in it and are not finished, each one unchanged; nothing
    else of the trader changes. *)
Theorem C7_sweep_removes_exactly_finished w visit :
  finished (trader w) = false ->
  visit ≡ₚ map_to_list (orders (trader w)) ->
  let before := orders (trader w) in
  let after := orders (trader (sweep w)) in
  sweepOver visit before = after
  /\ after = filter (fun e => Finished e.2 = false) before
  /\ (forall cid o,
         after !! cid = Some o <-> before !! cid = Some o /\ Finished o = false)
  /\ (forall cid o,
         before !! cid = Some o -> Finished o = true -> after !! cid = None)
  /\ set_orders (fun _ => before) (trader (sweep w)) = trader w
  /\ spotBalanceMgr (sweep w) = spotBalanceMgr w.
Proof.
  intros Hrun Hperm before after.
  assert (Hafter : after = filter (fun e => Finished e.2 = false) before).
  { subst after before. unfold sweep. rewrite Hrun. simpl.
    unfold sweepOrders. by apply sweepOver_filter. }
  split; [rewrite Hafter; by apply sweepOver_filter|].
  split; [done|].
  split; [intros cid o; rewrite Hafter; apply map_lookup_filter_Some|].
  split.
  - intros cid o Hm Hfin. rewrite Hafter. apply map_lookup_filter_None.
    right. intros o' Ho'. simpl. congruence.
  - subst before. unfold sweep. rewrite Hrun. simpl.
    split; [|reflexivity]. by destruct (trader w).
Qed.

(** ** Deal reconciliation *)

Lemma OnDeal_Buy deal w product :
  GetDir (O deal) = OrderDir_Buy ->
  Mul (Amount deal) (Price deal) = Some product ->
  OnDeal deal w
  = Returned
      (recordTempRights (quoteBalance (trader w)) (Neg product) (UTime deal)
         (recordTempRights (baseBalance (trader w)) (Amount deal) (UTime deal) w)).
Proof. intros H Hm. unfold OnDeal. by rewrite bool_decide_eq_true_2, Hm. Qed.

Lemma OnDeal_Buy_panics deal w :
  GetDir (O deal) = OrderDir_Buy ->
  Mul (Amount deal) (Price deal) = None ->
  OnDeal deal w
  = Panicked (recordTempRights (baseBalance (trader w)) (Amount deal) (UTime deal) w).
Proof. intros H Hm. unfold OnDeal. by rewrite bool_decide_eq_true_2, Hm. Qed.

Lemma OnDeal_Sell deal w product :
  GetDir (O deal) = OrderDir_Sell ->
  Mul (Amount deal) (Price deal) = Some product ->
  OnDeal deal w
  = Returned
      (recordTempRights (quoteBalance (trader w)) product (UTime deal)
         (recordTempRights (baseBalance (trader w)) (Neg (Amount deal))
            (UTime deal) w)).
Proof.
  intros H Hm. unfold OnDeal.
  rewrite bool_decide_eq_false_2 by (rewrite H; discriminate).
  by rewrite bool_decide_eq_true_2, Hm.
Qed.

Lemma OnDeal_Unknown deal w :
  GetDir (O deal) = OrderDir_Unknown -> OnDeal deal w = Returned w.
Proof.
  intros H. unfold OnDeal.
  by rewrite !bool_decide_eq_false_2 by (rewrite H; discriminate).
Qed.

(** The rights of the two balances after two adjustments through two
    different pointers. *)
Lemma rights_after_two_records w (db dq : Decimal) at_ :
  baseBalance (trader w) <> quoteBalance (trader w) ->
  let w' := recordTempRights (quoteBalance (trader w)) dq at_
              (recordTempRights (baseBalance (trader w)) db at_ w) in
  toQc (baseRights w') = toQc (baseRights w) + toQc db
  /\ toQc (quoteRights w') = toQc (quoteRights w) + toQc dq.
Proof.
  intros Hne w'. subst w'. unfold baseRights, quoteRights.
  rewrite !recordTempRights_trader. split.
  - rewrite recordTempRights_other by done. apply recordTempRights_same.
  - rewrite recordTempRights_same. f_equal.
    by rewrite recordTempRights_other.
Qed.

(** C3 (as amended). [OnDeal] on a trader whose base and quote balances
    are two balances, for a deal whose amount and price have a product
    that [Decimal.Mul] can form (the sum of the two exponents is an
    [int32]): the call returns; a buy deal of amount A at price P adds A
    to the base rights and subtracts A*P from the quote rights; a sell
    deal subtracts A from the base rights and adds A*P to the quote
    rights; and in every case base rights * P + quote rights is the same
    before and after. *)
Theorem C3_OnDeal_rights deal w :
  baseBalance (trader w) <> quoteBalance (trader w) ->
  (MinInt32 <= exp (Amount deal) + exp (Price deal) <= MaxInt32)%Z ->
  exists w',
    OnDeal deal w = Returned w'
    /\ let A : Qc := Amount deal in
       let P : Qc := Price deal in
       (GetDir (O deal) = OrderDir_Buy ->
        toQc (baseRights w') = baseRights w + A
        /\ toQc (quoteRights w') = quoteRights w - A * P)
       /\ (GetDir (O deal) = OrderDir_Sell ->
           toQc (baseRights w') = baseRights w - A
           /\ toQc (quoteRights w') = quoteRights w + A * P)
       /\ baseRights w' * P + quoteRights w' = baseRights w * P + quoteRights w.
Proof.
  intros Hne Hexp.
  pose proof (Mul_Some _ _ Hexp) as Hmul.
  pose proof (toQc_Mul _ _ _ Hmul) as Hprod.
  set (product := mkDecimal _ _) in *.
  destruct (GetDir (O deal)) eqn:Hd.
  - eexists. split; [by apply OnDeal_Buy|].
    destruct (rights_after_two_records w (Amount deal) (Neg product)
                (UTime deal) Hne) as [Hb Hq].
    rewrite toQc_Neg, Hprod in Hq. cbv zeta.
    split; [intros _; by rewrite Hb, Hq|]. split; [discriminate|].
    rewrite Hb, Hq. ring.
  - eexists. split; [by apply OnDeal_Sell|].
    destruct (rights_after_two_records w (Neg (Amount deal)) product
                (UTime deal) Hne) as [Hb Hq].
    rewrite toQc_Neg in Hb. rewrite Hprod in Hq. cbv zeta.
    split; [discriminate|]. split; [intros _; by rewrite Hb, Hq|].
    rewrite Hb, Hq. ring.
  - eexists. split; [by apply OnDeal_Unknown|]. cbv zeta.
    split; [discriminate|]. split; [discriminate|]. reflexivity.
Qed.

(** ** Observer order *)

Lemma fanout_app2 obs (a b : OrderObserver Obs) w deal :
  fanout (obs ++ [a; b]) w deal
  = andThen (andThen (fanout obs w deal) (fun w => notify deal w a))
            (fun w => notify deal w b).
Proof. unfold fanout. by rewrite foldl_app. Qed.

(** C6. A successful [MakeOrder] on a ready trader registers the trader
    itself and then the caller's observer, after whatever observers the
    order's [Init] left on it; so each deal of the order reaches the
    trader's [OnDeal] first and the caller's observer directly after it,
    which therefore sees the balances as [OnDeal] has left them (and is
    not called at all should [OnDeal] panic). *)
Theorem C6_internal_observer_first price amount dir makeOnly reduceOnly purpose
        (obs : Obs) w o0 :
  Ready w = true ->
  SpotOrder_Init w price amount dir makeOnly purpose = Some o0 ->
  exists o w',
    MakeOrder price amount dir makeOnly reduceOnly purpose obs w = (Some o, w')
    /\ orders (trader w') !! CltOrderId o0 = Some o
    /\ Go (CltOrderId o0) ∈ trace w'
    /\ observers o = observers o0 ++ [ObsTrader; ObsExternal obs]
    /\ (forall deal w1,
           fanout (observers o) w1 deal
           = andThen (andThen (fanout (observers o0) w1 deal) (OnDeal deal))
               (fun w2 =>
                  Returned (emit (ObserverOnDeal obs deal (baseRights w2)
                                                 (quoteRights w2)) w2))).
Proof.
  intros Hready Hinit.
  set (o := AddObserver (ObsExternal obs) (AddObserver ObsTrader o0)).
  assert (Hobs : observers o = observers o0 ++ [ObsTrader; ObsExternal obs]).
  { subst o. simpl. by rewrite <- app_assoc. }
  assert (Hlook :
    alter (AddObserver (ObsExternal obs)) (CltOrderId o0)
      (alter (AddObserver ObsTrader) (CltOrderId o0)
         (<[CltOrderId o0 := o0]> (orders (trader w)))) !! CltOrderId o0
    = Some o).
  { by rewrite !lookup_alter_eq, lookup_insert_eq. }
  eexists o, _. split.
  { unfold MakeOrder. rewrite Hready, Hinit. simpl. by rewrite Hlook. }
  split; [exact Hlook|].
  split; [apply elem_of_app; right; by left|].
  split; [exact Hobs|].
  intros deal w1. rewrite Hobs, fanout_app2. reflexivity.
Qed.

(** ** The error lock *)

Lemma routeSnapshot_errorlock os w :
  errorlock (trader (world_of (routeSnapshot os w))) = errorlock (trader w).
Proof.
  pose proof (routeSnapshot_trader_but_orders os w) as H.
  by apply (f_equal errorlock) in H.
Qed.

(** The snapshot callback can set the lock and never clears it. *)
Lemma onOrderSnapshot_errorlock id os w :
  errorlock (trader (world_of (onOrderSnapshot id os w)))
  = errorlock (trader w)
    || bool_decide (0 < StratergyId os)%Z && bool_decide (StratergyId os <> id).
Proof.
  unfold onOrderSnapshot, logger_LogPanic.
  destruct (bool_decide (0 < StratergyId os)%Z && bool_decide (StratergyId os <> id));
    [destruct LogPanic_returns|]; simpl;
    rewrite ?routeSnapshot_errorlock; simpl;
    rewrite ?orb_true_r, ?orb_false_r; reflexivity.
Qed.

Lemma MakeOrder_errorlock price amount dir makeOnly reduceOnly purpose
      (obs : Obs) w :
  errorlock
    (trader (MakeOrder price amount dir makeOnly reduceOnly purpose obs w).2)
  = errorlock (trader w).
Proof.
  unfold MakeOrder. destruct (Ready w); [|reflexivity].
  destruct (SpotOrder_Init w price amount dir makeOnly purpose); reflexivity.
Qed.



End TraderFacts.

Section ErrorLock.

Import binance.

Context {M : Type} `{!SpotMarket M} {Obs : Type} (P : Package M Obs).

Implicit Types (w : World M Obs).


End ErrorLock.


(* ===================================================================== *)
(** * Price alignment of the derivative market                            *)
(* ===================================================================== *)

Section AlignPriceFacts.

Import okexv5 okexv5.FutureMarket.

Variable align : CommonMarket -> Decimal -> OrderDir -> bool -> Decimal.

(** The clamping looks at the two stored limits and at nothing else. *)
Lemma AlignPrice_limits_only (m m' : FutureMarket.t) price dir makeOnly :
  base m' = base m ->
  maxBuyPrice m' = maxBuyPrice m ->
  minSellPrice m' = minSellPrice m ->
  AlignPrice align m' price dir makeOnly = AlignPrice align m price dir makeOnly.
Proof. intros Hb Hmax Hmin. unfold AlignPrice. by rewrite Hb, Hmax, Hmin. Qed.

(** Until the first price-limit response the limits are zero, and every
    positive aligned buy price is replaced by zero. *)
Lemma AlignPrice_before_first_response cm inst price makeOnly :
  0 < align cm price OrderDir_Buy makeOnly ->
  AlignPrice align (Init cm inst zero) price OrderDir_Buy makeOnly = Zero.
Proof.
  intros Hpos. unfold AlignPrice, GreaterThan. simpl.
  by rewrite bool_decide_eq_true_2.
Qed.

(** C5 (as amended). [AlignPrice] applies the base alignment and then
    clamps against the two stored limits, whatever the state of the
    price-limit flag: an aligned buy price above [maxBuyPrice] becomes
    [maxBuyPrice], an aligned sell price below [minSellPrice] becomes
    [minSellPrice], and every other aligned price is returned as it is.
    So a buy result never exceeds [maxBuyPrice], a sell result is never
    below [minSellPrice], and two markets with the same limits align
    alike even when their flags differ. *)
Theorem C5_AlignPrice_clamps_to_stored_limits (m : FutureMarket.t)
        (price : Decimal) (dir : OrderDir) (makeOnly : bool) :
  let aligned := align (base m) price dir makeOnly in
  let r := AlignPrice align m price dir makeOnly in
  match dir with
  | OrderDir_Buy =>
      (maxBuyPrice m < aligned -> r = maxBuyPrice m)
      /\ (aligned <= maxBuyPrice m -> r = aligned)
      /\ r <= maxBuyPrice m
  | OrderDir_Sell =>
      (aligned < minSellPrice m -> r = minSellPrice m)
      /\ (minSellPrice m <= aligned -> r = aligned)
      /\ minSellPrice m <= r
  | OrderDir_Unknown => r = aligned
  end
  /\ (forall mark limit funding : bool,
         AlignPrice align
           (FutureMarket.mk (base m) (markprice m) (maxBuyPrice m) (minSellPrice m)
              (fundingRate m) (nextFundingRate m) (fundingTime m)
              (nextFundingTime m) mark limit funding)
           price dir makeOnly = r).
Proof.
  intros aligned r. subst aligned r. split; [|reflexivity].
  unfold AlignPrice, GreaterThan, LessThan.
  set (a := align (base m) price dir makeOnly).
  destruct dir; simpl.
  - destruct (decide (maxBuyPrice m < a)) as [Hlt|Hge].
    + rewrite bool_decide_eq_true_2 by done.
      split; [done|]. split; [|apply Qcle_refl].
      intros Hle. by apply Qcle_not_lt in Hle.
    + rewrite bool_decide_eq_false_2 by done.
      split; [done|]. split; [done|]. by apply Qcnot_lt_le.
  - destruct (decide (a < minSellPrice m)) as [Hlt|Hge].
    + rewrite bool_decide_eq_true_2 by done.
      split; [done|]. split; [|apply Qcle_refl].
      intros Hle. by apply Qcle_not_lt in Hle.
    + rewrite bool_decide_eq_false_2 by done.
      split; [done|]. split; [done|]. by apply Qcnot_lt_le.
  - reflexivity.
Qed.

End AlignPriceFacts.

(** C5, the claim as worded fails: right after [Init], before any
    price-limit response, a buy price of 100 that is already on the tick
    grid is replaced by 0, although no limit is known yet. *)
Lemma C5_counterexample_clamped_before_limits_known :
  okexv5.FutureMarket.priceLimitOK Examples.fresh_swap = false
  /\ okexv5.FutureMarket.AlignPrice Examples.on_grid Examples.fresh_swap
       (NewFromInt 100) OrderDir_Buy false = Zero
  /\ okexv5.FutureMarket.AlignPrice_spec Examples.on_grid Examples.fresh_swap
       (NewFromInt 100) OrderDir_Buy false = NewFromInt 100
  /\ okexv5.FutureMarket.AlignPrice Examples.on_grid Examples.fresh_swap
       (NewFromInt 100) OrderDir_Buy false
     <> okexv5.FutureMarket.AlignPrice_spec Examples.on_grid Examples.fresh_swap
          (NewFromInt 100) OrderDir_Buy false.
Proof.
  assert (H0 : okexv5.FutureMarket.AlignPrice Examples.on_grid Examples.fresh_swap
                 (NewFromInt 100) OrderDir_Buy false = Zero).
  { apply AlignPrice_before_first_response. reflexivity. }
  split; [reflexivity|]. split; [exact H0|]. split; [reflexivity|].
  rewrite H0. discriminate.
Qed.

(* ===================================================================== *)
(** * The theorems at concrete traders                                    *)
(* ===================================================================== *)

(** C3, the claim as worded fails, in two ways.  First, for a deal whose
    amount and price have exponents that do not add up to an [int32],
    [Decimal.Mul] panics after the base balance has been adjusted: the
    quote balance is never written, and its rights are not the old ones
    less A*P.  Second, on a trader whose two pointers are one balance, a
    buy leaves that balance at +A - A*P, not at +A. *)
Lemma C3_counterexample_panic_and_shared_balance :
  (let w := Examples.world0 true true true false in
   let deal := Examples.overflow_deal in
   let w1 := binance.recordTempRights "BTC" (binance.Amount deal)
               (binance.UTime deal) w in
   binance.GetDir (binance.O deal) = OrderDir_Buy
   /\ binance.OnDeal deal w = binance.Panicked w1
   /\ binance.spotBalanceMgr w1 "USDT"
       = binance.spotBalanceMgr w "USDT"
   /\ toQc (binance.quoteRights w1)
      <> toQc (binance.quoteRights w)
         - toQc (binance.Amount deal) * toQc (binance.Price deal))
  /\ (let w := Examples.alias_world in
      let deal := Examples.buy_deal in
      binance.GetDir (binance.O deal) = OrderDir_Buy
      /\ exists w',
          binance.OnDeal deal w = binance.Returned w'
          /\ toQc (binance.baseRights w')
             <> toQc (binance.baseRights w) + toQc (binance.Amount deal)).
Proof.
  split.
  - intros w deal w1.
    assert (Hq : binance.quoteRights w1 = binance.quoteRights w) by reflexivity.
    split; [reflexivity|]. split; [reflexivity|]. split; [reflexivity|].
    rewrite Hq. intros Heq.
    assert (Hprod : toQc (binance.Amount deal) * toQc (binance.Price deal) = Q2Qc 0).
    { set (x := toQc (binance.quoteRights w)) in *.
      set (y := toQc (binance.Amount deal) * toQc (binance.Price deal)) in *.
      clearbody x y. replace y with (x - (x - y)) by ring.
      rewrite <- Heq. ring. }
    apply Qcmult_integral in Hprod as [H|H];
      revert H; apply toQc_nonzero; discriminate.
  - intros w deal. split; [reflexivity|].
    eexists. split; [reflexivity|].
    intros H. apply (f_equal this) in H. vm_compute in H. discriminate.
Qed.

Section Instances.

Import binance Examples.

#[local] Existing Instance package0.

Lemma C10_witness :
  let w := world0 true true true true in
  Ready w = false /\ UnreadyReason w = "".
Proof.
  apply (C10_error_lock_has_no_reason (world0 true true true true));
    reflexivity.
Defined.

Lemma C4_witness :
  let w := world0 false true true false in
  let r := MakeOrder (NewFromInt 100) 1 OrderDir_Buy false false "test" "strategy" w in
  Ready w = false /\ r.1 = None /\ orders (trader r.2) = orders (trader w).
Proof.
  intros w r.
  assert (Hnot : Ready w = false) by reflexivity.
  split; [exact Hnot|].
  pose proof (C4_MakeOrder_not_ready (NewFromInt 100) 1 OrderDir_Buy false false
                "test" "strategy" w Hnot) as H.
  split; [apply H | apply H].
Defined.

Lemma C7_witness :
  finished (trader sweep_world) = false
  /\ orders (trader (sweep sweep_world))
     = filter (fun e => Finished e.2 = false) three_orders.
Proof.
  assert (Hrun : finished (trader sweep_world) = false) by reflexivity.
  split; [exact Hrun|].
  pose proof (C7_sweep_removes_exactly_finished sweep_world
                (map_to_list three_orders) Hrun (reflexivity _)) as H.
  apply H.
Defined.

Lemma C3_witness :
  let w := world0 true true true false in
  baseBalance (trader w) <> quoteBalance (trader w)
  /\ exists w',
      OnDeal buy_deal w = Returned w'
      /\ toQc (baseRights w') = toQc (baseRights w) + toQc (NewFromInt 2)
      /\ toQc (quoteRights w')
         = toQc (quoteRights w) - toQc (NewFromInt 2) * toQc (NewFromInt 50000).
Proof.
  intros w.
  assert (Hne : baseBalance (trader w) <> quoteBalance (trader w))
    by (vm_compute; discriminate).
  assert (Hexp : (MinInt32 <= exp (Amount buy_deal) + exp (Price buy_deal)
                  <= MaxInt32)%Z)
    by (vm_compute; split; discriminate).
  split; [exact Hne|].
  destruct (C3_OnDeal_rights buy_deal w Hne Hexp) as (w' & Hret & Hbuy & _ & _).
  exists w'. split; [exact Hret|]. apply Hbuy. reflexivity.
Defined.

Lemma C6_witness :
  let w := world0 true true true false in
  Ready w = true
  /\ exists o w',
      MakeOrder (NewFromInt 100) 1 OrderDir_Buy false false "test" "strategy" w
      = (Some o, w')
      /\ observers o = [ObsTrader; ObsExternal "strategy"].
Proof.
  intros w.
  assert (Hready : Ready w = true) by reflexivity.
  split; [exact Hready|].
  assert (Hinit : SpotOrder_Init w (NewFromInt 100) 1 OrderDir_Buy false "test"
                  = Some (mkSpotOrder "cid-1" OrderDir_Buy (NewFromInt 100) 1
                                      false "test" false []))
    by reflexivity.
  destruct (C6_internal_observer_first (NewFromInt 100) 1 OrderDir_Buy false false
              "test" "strategy" w _ Hready Hinit)
    as (o & w' & Hmk & _ & _ & Hobs & _).
  exists o, w'. split; [exact Hmk | exact Hobs].
Defined.


Lemma C5_witness :
  okexv5.FutureMarket.AlignPrice on_grid
    (okexv5.FutureMarket.priceLimitCallback (NewFromInt 90) (NewFromInt 110) fresh_swap)
    (NewFromInt 120) OrderDir_Buy false
  <= NewFromInt 110.
Proof.
  apply (C5_AlignPrice_clamps_to_stored_limits on_grid
           (okexv5.FutureMarket.priceLimitCallback (NewFromInt 90) (NewFromInt 110)
              fresh_swap)
           (NewFromInt 120) OrderDir_Buy false).
Defined.

End Instances.

(** ** Scenarios *)

(** A derivative market with depth but without mark price is not ready. *)
Example Ready_future_scenario :
  okexv5.FutureMarket.Ready
    (okexv5.FutureMarket.mk (okexv5.mkCommonMarket "BTC-USDT-SWAP" true)
       0 0 0 0 0 0%Z 0%Z false true true) = false.
Proof. reflexivity. Qed.

(** The sweep of three orders, two of them finished, keeps the third. *)
Example sweep_three_orders :
  binance.sweepOrders Examples.three_orders
  = {[ "b" := Examples.order "b" false ]}.
Proof. vm_compute. reflexivity. Qed.

(** With limits 90/110 in place a buy at 120 is clamped to 110 and a sell
    at 80 to 90; a buy at 100 is left alone. *)
Example AlignPrice_with_limits :
  let m := okexv5.FutureMarket.priceLimitCallback (NewFromInt 90) (NewFromInt 110)
             Examples.fresh_swap in
  okexv5.FutureMarket.AlignPrice Examples.on_grid m (NewFromInt 120) OrderDir_Buy false
  = NewFromInt 110
  /\ okexv5.FutureMarket.AlignPrice Examples.on_grid m (NewFromInt 80) OrderDir_Sell false
     = NewFromInt 90
  /\ okexv5.FutureMarket.AlignPrice Examples.on_grid m (NewFromInt 100) OrderDir_Buy true
     = NewFromInt 100.
Proof. repeat split. Qed.


(** A contract buy order of a trader without position: with [reduceOnly]
    it closes the short side, without it it opens the long side. *)
Example contract_order_reduceOnly :
  let init ro :=
    (okexv5.ContractOrder.Init (fun p => "cid-" +:+ p)
       Examples.CommonOrder_Init_store Examples.blank_contract_order
       Examples.flat_trader (NewFromInt 100) 1 OrderDir_Buy false ro "test").1 in
  okexv5.ContractOrder.getPosSide "long_short_mode" (init true) = "short"
  /\ okexv5.ContractOrder.getPosSide "long_short_mode" (init false) = "long".
Proof. split; reflexivity. Qed.

(* ===================================================================== *)
(** * Further facts about the spot trader                                 *)
(* ===================================================================== *)

Section TraderMore.

Import binance.

Context {M : Type} `{!SpotMarket M} {Obs : Type} `{!Package M Obs}.

Implicit Types (w : World M Obs) (t : SpotTrader M Obs)
         (o : SpotOrder Obs) (deal : Deal Obs)
         (m : gmap string (SpotOrder Obs)).

(** ** Ready and UnreadyReason agree, the error lock apart *)

(** X1. On a trader without error lock, whose market names a reason
    whenever it is not ready, [UnreadyReason] is empty exactly when
    [Ready] holds. *)
Theorem X1_UnreadyReason_empty_iff_Ready w :
  errorlock (trader w) = false ->
  (market_Ready (market (trader w)) = false ->
   market_UnreadyReason (market (trader w)) <> "") ->
  UnreadyReason w = "" <-> Ready w = true.
Proof.
  intros Hlock Hmarket. rewrite Ready_spec, Hlock. unfold UnreadyReason. simpl.
  destruct (market_Ready (market (trader w))); simpl.
  2:{ split; [intros H; by apply Hmarket in H | done]. }
  destruct (ready (spotBalanceMgr w (baseBalance (trader w)))); simpl;
    [|split; [discriminate | done]].
  destruct (ready (spotBalanceMgr w (quoteBalance (trader w)))); simpl;
    [|split; [discriminate | done]].
  destruct (exchangeReady w); simpl; split; done.
Qed.

(** ** MakeOrder on a ready trader *)

(** X2. A successful [MakeOrder] stores the new order, with the two
    observers added, under its client order id, replacing whatever order
    was there; every other entry of the map, the rest of the trader and the
    balances stay as they are; the one effect is the submission of this
    order; and the order returned is the stored one. *)
Theorem X2_MakeOrder_registers price amount dir makeOnly reduceOnly purpose
        (obs : Obs) w o0 :
  Ready w = true ->
  SpotOrder_Init w price amount dir makeOnly purpose = Some o0 ->
  let o := AddObserver (ObsExternal obs) (AddObserver ObsTrader o0) in
  let r := MakeOrder price amount dir makeOnly reduceOnly purpose obs w in
  r.1 = Some o
  /\ orders (trader r.2) = <[CltOrderId o0 := o]> (orders (trader w))
  /\ (forall cid, cid <> CltOrderId o0 ->
                  orders (trader r.2) !! cid = orders (trader w) !! cid)
  /\ set_orders (fun _ => orders (trader w)) (trader r.2) = trader w
  /\ spotBalanceMgr r.2 = spotBalanceMgr w
  /\ exchangeReady r.2 = exchangeReady w
  /\ trace r.2 = trace w ++ [Go (CltOrderId o0)].
Proof.
  intros Hready Hinit o r.
  assert (Hmap :
    alter (AddObserver (ObsExternal obs)) (CltOrderId o0)
      (alter (AddObserver ObsTrader) (CltOrderId o0)
         (<[CltOrderId o0 := o0]> (orders (trader w))))
    = <[CltOrderId o0 := o]> (orders (trader w))).
  { by rewrite !alter_insert_eq. }
  subst r. unfold MakeOrder. rewrite Hready, Hinit. simpl. rewrite Hmap.
  split; [apply lookup_insert_eq|]. split; [done|].
  split; [intros cid Hne; by apply lookup_insert_ne|].
  split; [by destruct (trader w)|]. done.
Qed.

(** X3. When the trader is ready but the order's [Init] turns the order
    down, [MakeOrder] returns nil and changes nothing at all: no entry in
    the map, no submission, and, unlike on a trader that is not ready, no
    log line and no pause. *)
Theorem X3_MakeOrder_rejected_by_Init price amount dir makeOnly reduceOnly
        purpose (obs : Obs) w :
  Ready w = true ->
  SpotOrder_Init w price amount dir makeOnly purpose = None ->
  MakeOrder price amount dir makeOnly reduceOnly purpose obs w = (None, w).
Proof. intros Hready Hinit. unfold MakeOrder. by rewrite Hready, Hinit. Qed.

(** ** The sweep *)

Lemma sweepOrders_filter m :
  sweepOrders m = filter (fun e => Finished e.2 = false) m.
Proof. unfold sweepOrders. by apply sweepOver_filter. Qed.

(** X4. Sweeping is idempotent, only ever removes entries, and leaves a
    map without finished orders exactly as it is. *)
Theorem X4_sweepOrders_idempotent m :
  sweepOrders (sweepOrders m) = sweepOrders m
  /\ sweepOrders m ⊆ m
  /\ ((forall cid o, m !! cid = Some o -> Finished o = false) -> sweepOrders m = m).
Proof.
  rewrite !sweepOrders_filter. split; [|split].
  - rewrite map_filter_filter. apply map_filter_ext. intros cid o _. tauto.
  - apply map_filter_subseteq.
  - intros Hall. apply map_filter_id. intros cid o Ho. simpl. eauto.
Qed.

(** X5. [Orders] after a turn of the clean-up loop of a running trader
    lists exactly the orders that [Orders] listed before and that are not
    finished. *)
Theorem X5_Orders_after_sweep w o :
  finished (trader w) = false ->
  o ∈ Orders (sweep w) <-> o ∈ Orders w /\ Finished o = false.
Proof.
  intros Hrun. unfold Orders, sweep. rewrite Hrun. simpl.
  rewrite sweepOrders_filter, !list_elem_of_fmap. split.
  - intros [[cid o'] [-> Hin]]. simpl.
    apply elem_of_map_to_list, map_lookup_filter_Some in Hin as [Hm Hf].
    split; [|done]. exists (cid, o'). split; [done|].
    by apply elem_of_map_to_list.
  - intros [[[cid o'] [-> Hin]] Hf]. simpl in *.
    exists (cid, o'). split; [done|].
    apply elem_of_map_to_list, map_lookup_filter_Some. split; [|done].
    by apply elem_of_map_to_list.
Qed.

(** ** Uninit *)

Lemma routeSnapshot_dom os w :
  dom (orders (trader (world_of (routeSnapshot os w)))) = dom (orders (trader w)).
Proof.
  unfold routeSnapshot.
  destruct (orders (trader w) !! ClientOrderID os) as [o|] eqn:Ho; [|done].
  destruct (SpotOrder_onSnapshot os o) as [o' deals].
  rewrite deliver_trader. simpl. apply dom_insert_lookup_L. by rewrite Ho.
Qed.

Lemma onOrderSnapshot_dom id os w :
  dom (orders (trader (world_of (onOrderSnapshot id os w))))
  = dom (orders (trader w)).
Proof.
  unfold onOrderSnapshot, logger_LogPanic.
  destruct (_ && _); [destruct LogPanic_returns|]; simpl;
    rewrite ?routeSnapshot_dom; reflexivity.
Qed.

Lemma onOrderSnapshot_finished id os w :
  finished (trader (world_of (onOrderSnapshot id os w))) = finished (trader w).
Proof.
  unfold onOrderSnapshot, logger_LogPanic.
  destruct (_ && _); [destruct LogPanic_returns|]; simpl; try reflexivity;
    match goal with
    | |- context [routeSnapshot os ?w0] =>
        pose proof (routeSnapshot_trader_but_orders os w0) as H;
        by apply (f_equal finished) in H
    end.
Qed.

Lemma onOrderSnapshot_stratergyId id os w :
  stratergyId (trader (world_of (onOrderSnapshot id os w)))
  = stratergyId (trader w).
Proof.
  unfold onOrderSnapshot, logger_LogPanic.
  destruct (_ && _); [destruct LogPanic_returns|]; simpl; try reflexivity;
    match goal with
    | |- context [routeSnapshot os ?w0] =>
        pose proof (routeSnapshot_trader_but_orders os w0) as H;
        by apply (f_equal stratergyId) in H
    end.
Qed.

Lemma step_finished w e :
  finished (trader w) = true -> finished (trader (world_of (step w e))) = true.
Proof.
  intros Hf. destruct e; simpl; try done.
  - by rewrite onOrderSnapshot_finished.
  - unfold sweep. by rewrite Hf.
  - unfold MakeOrder. destruct (Ready w); [|done].
    by destruct (SpotOrder_Init w price amount dir makeOnly purpose).
Qed.

Lemma step_finished_dom w e :
  finished (trader w) = true ->
  dom (orders (trader w)) ⊆ dom (orders (trader (world_of (step w e)))).
Proof.
  intros Hf. destruct e; simpl; try done.
  - by rewrite onOrderSnapshot_dom.
  - unfold sweep. by rewrite Hf.
  - unfold MakeOrder. destruct (Ready w); [|done].
    destruct (SpotOrder_Init w price amount dir makeOnly purpose); [|done].
    simpl. rewrite !dom_alter_L. apply dom_insert_subseteq.
Qed.

(** X6. [Uninit] raises the [finished] flag, which stops the clean-up
    loop; [Ready] does not look at the flag, the orders and the error lock
    stay; and from then on, whatever happens, no client order id ever
    leaves the live-order map. *)
Theorem X6_Uninit_stops_the_sweep pkgLogPrefix w :
  let w1 := Uninit pkgLogPrefix w in
  (forall b, Ready (with_trader (set_finished b) w) = Ready w)
  /\ orders (trader w1) = orders (trader w)
  /\ errorlock (trader w1) = errorlock (trader w)
  /\ sweep w1 = w1
  /\ (forall (evs : list (Event M Obs)) cid,
         cid ∈ dom (orders (trader w)) ->
         cid ∈ dom (orders (trader (run evs w1)))).
Proof.
  intros w1. repeat (split; [reflexivity|]).
  assert (Hf : finished (trader w1) = true) by reflexivity.
  assert (Hd : dom (orders (trader w)) ⊆ dom (orders (trader w1))) by done.
  clearbody w1. intros evs. revert w1 Hf Hd.
  induction evs as [|e evs IH]; intros w1 Hf Hd cid Hin; simpl.
  - by apply Hd.
  - pose proof (step_finished w1 e Hf) as Hf'.
    pose proof (step_finished_dom w1 e Hf) as Hd'.
    destruct (step w1 e) as [w2|w2]; simpl in *.
    + apply (IH w2); [done| |done]. by etrans.
    + by apply Hd', Hd.
Qed.

(** ** The snapshot callback *)

(** X7. A snapshot of the trader's own strategy (or without a strategy id)
    for a client order id that is not in the map is dropped: the callback
    returns and the world is as before. *)
Theorem X7_snapshot_for_unknown_order_is_dropped id os w :
  orders (trader w) !! ClientOrderID os = None ->
  ((StratergyId os <= 0)%Z \/ StratergyId os = id) ->
  onOrderSnapshot id os w = Returned w.
Proof.
  intros Hnone Hown. unfold onOrderSnapshot.
  replace (bool_decide (0 < StratergyId os)%Z && bool_decide (StratergyId os <> id))
    with false.
  - simpl. unfold routeSnapshot. by rewrite Hnone.
  - symmetry. apply andb_false_iff. destruct Hown as [Hle| ->].
    + left. apply bool_decide_eq_false_2. lia.
    + right. by apply bool_decide_eq_false_2; intros ?.
Qed.

(** X8. When the order reports no new deal for a snapshot, so that no
    observer is called, the snapshot callback never adds or removes a
    client order id and touches no order but the one the snapshot names;
    when it returns, that order, if the map holds it, is the one
    [onSnapshot] produced, also for a snapshot that has just set the error
    lock. *)
Theorem X8_snapshot_touches_one_order id os w :
  (forall o, orders (trader w) !! ClientOrderID os = Some o ->
             (SpotOrder_onSnapshot os o).2 = []) ->
  let r := onOrderSnapshot id os w in
  dom (orders (trader (world_of r))) = dom (orders (trader w))
  /\ (forall cid, cid <> ClientOrderID os ->
                  orders (trader (world_of r)) !! cid = orders (trader w) !! cid)
  /\ (forall w', r = Returned w' ->
                 orders (trader w') !! ClientOrderID os
                 = (fun o => (SpotOrder_onSnapshot os o).1)
                     <$> orders (trader w) !! ClientOrderID os).
Proof.
  intros Hquiet r. subst r. unfold onOrderSnapshot, logger_LogPanic.
  destruct (_ && _); [destruct LogPanic_returns|]; simpl.
  1,3: unfold routeSnapshot; simpl;
       destruct (orders (trader w) !! ClientOrderID os) as [o|] eqn:Ho; simpl;
       [specialize (Hquiet o eq_refl);
        destruct (SpotOrder_onSnapshot os o) as [o' deals] eqn:Hs;
        simpl in Hquiet; subst deals; simpl;
        split; [apply dom_insert_lookup_L; by rewrite Ho|];
        split; [intros cid Hne; by apply lookup_insert_ne|];
        intros w' [= <-]; simpl; by rewrite lookup_insert_eq
       |split; [done|]; split; [done|]; by intros w' [= <-]].
  split; [done|]. split; [done|]. intros w' Hw'. discriminate.
Qed.

Lemma step_stratergyId w e :
  stratergyId (trader (world_of (step w e))) = stratergyId (trader w).
Proof.
  destruct e; simpl; try done.
  - apply onOrderSnapshot_stratergyId.
  - unfold sweep. by destruct (finished (trader w)).
  - unfold MakeOrder. destruct (Ready w); [|done].
    by destruct (SpotOrder_Init w price amount dir makeOnly purpose).
Qed.

(** X9. Nothing but a snapshot with the positive id of another strategy
    changes the error lock: over any sequence of events without such a
    snapshot the lock is at the end what it was at the start. *)
Theorem X9_only_foreign_snapshots_lock (evs : list (Event M Obs)) w :
  Forall (fun e => foreign (stratergyId (trader w)) e = false) evs ->
  errorlock (trader (run evs w)) = errorlock (trader w).
Proof.
  revert w. induction evs as [|e evs IH]; intros w Hall; simpl; [done|].
  apply Forall_cons in Hall as [He Hall].
  assert (Hl : errorlock (trader (world_of (step w e))) = errorlock (trader w)).
  { destruct e; simpl in *; try done.
    - by rewrite onOrderSnapshot_errorlock, He, orb_false_r.
    - unfold sweep. by destruct (finished (trader w)).
    - apply MakeOrder_errorlock. }
  pose proof (step_stratergyId w e) as Hid.
  destruct (step w e) as [w'|w']; simpl in *; [|done].
  rewrite <- Hl. apply IH. by rewrite Hid.
Qed.

(** ** OnDeal *)

(** X10. [OnDeal] writes to the two balances the trader points to and to
    nothing else, however it ends: the balance of every other currency, the
    trader, the exchange flag and the trace are as before; and a deal whose
    order is neither a buy nor a sell changes nothing. *)
Theorem X10_OnDeal_frame deal w :
  trader (world_of (OnDeal deal w)) = trader w
  /\ exchangeReady (world_of (OnDeal deal w)) = exchangeReady w
  /\ trace (world_of (OnDeal deal w)) = trace w
  /\ (forall c, c <> baseBalance (trader w) -> c <> quoteBalance (trader w) ->
                spotBalanceMgr (world_of (OnDeal deal w)) c = spotBalanceMgr w c)
  /\ (GetDir (O deal) <> OrderDir_Buy -> GetDir (O deal) <> OrderDir_Sell ->
      OnDeal deal w = Returned w).
Proof.
  split; [apply OnDeal_trader|]. split; [apply OnDeal_exchangeReady|].
  split; [apply OnDeal_trace|]. split.
  - intros c Hb Hq. unfold OnDeal.
    repeat case_bool_decide; try done;
      destruct (Mul (Amount deal) (Price deal)); cbn [world_of];
      repeat (rewrite recordTempRights_other by congruence); reflexivity.
  - intros Hb Hs. unfold OnDeal. by rewrite !bool_decide_eq_false_2.
Qed.

End TraderMore.

(* ===================================================================== *)
(** * Further facts about the okexv5 markets                              *)
(* ===================================================================== *)

(** X11. The spot market names a reason exactly when it is not ready:
    [UnreadyReason] is empty if and only if [Ready] holds. *)
Theorem X11_SpotMarket_reason_iff_not_ready (m : okexv5.SpotMarket.t) :
  okexv5.SpotMarket.UnreadyReason m = "" <-> okexv5.SpotMarket.Ready m = true.
Proof.
  unfold okexv5.SpotMarket.UnreadyReason, okexv5.SpotMarket.Ready.
  destruct (okexv5.depthOK (okexv5.SpotMarket.base m)); simpl; split; done.
Qed.

Section FeedFacts.

Import okexv5 okexv5.FutureMarket.

Variable AlignPriceNumber : CommonMarket -> Decimal -> Decimal.
Variable align : CommonMarket -> Decimal -> OrderDir -> bool -> Decimal.

Implicit Types (m : FutureMarket.t) (ev : Feed) (evs : list Feed).

Lemma feeds_snoc m evs ev :
  feeds AlignPriceNumber m (evs ++ [ev])
  = feed AlignPriceNumber (feeds AlignPriceNumber m evs) ev.
Proof. unfold feeds. by rewrite foldl_app. Qed.

Lemma lastPriceLimit_snoc evs ev :
  lastPriceLimit (evs ++ [ev])
  = match ev with
    | PriceLimitResp s b => Some (s, b)
    | PriceLimitREST true s b => Some (s, b)
    | _ => lastPriceLimit evs
    end.
Proof. unfold lastPriceLimit. by rewrite foldl_app. Qed.

(** The price-limit flag is only up when a response has set the limits,
    and the limits are always those of the latest response. *)
Lemma feeds_priceLimit cm inst m0 evs :
  let m := feeds AlignPriceNumber (Init cm inst m0) evs in
  match lastPriceLimit evs with
  | Some (s, b) => minSellPrice m = s /\ maxBuyPrice m = b
  | None =>
      priceLimitOK m = false
      /\ minSellPrice m = minSellPrice m0 /\ maxBuyPrice m = maxBuyPrice m0
  end.
Proof.
  induction evs as [|ev evs IH] using rev_ind; [done|].
  simpl in *. rewrite feeds_snoc, lastPriceLimit_snoc.
  destruct ev as [| | | [] | | | |]; simpl; try done;
    destruct (lastPriceLimit evs) as [[s b]|]; simpl; try done.
  by destruct IH as (_ & ? & ?).
Qed.

Lemma feeds_markprice cm inst m0 evs :
  markpriceOK (feeds AlignPriceNumber (Init cm inst m0) evs) = true ->
  existsb isMarkPriceResp evs = true.
Proof.
  induction evs as [|ev evs IH] using rev_ind; [done|].
  rewrite feeds_snoc, existsb_app. simpl.
  destruct ev as [| | | [] | | | |]; simpl;
    rewrite ?orb_true_r, ?orb_false_r; try done.
Qed.

Lemma feeds_funding_swap cm inst m0 evs :
  Contains inst "SWAP" = true ->
  fundingFeeOK (feeds AlignPriceNumber (Init cm inst m0) evs) = true ->
  existsb isFundingRateResp evs = true.
Proof.
  intros Hswap.
  induction evs as [|ev evs IH] using rev_ind; [simpl; by rewrite Hswap|].
  rewrite feeds_snoc, existsb_app. simpl.
  destruct ev as [| | | [] | | | |]; simpl;
    rewrite ?orb_true_r, ?orb_false_r; try done.
Qed.

(** X12. A derivative market that is ready some time after [Init] has
    heard from each of its feeds: a mark price has arrived, a price-limit
    response has arrived and the stored limits are those of the latest
    one, and, for a perpetual swap, a funding rate has arrived.  In
    particular a market is never ready right after [Init]. *)
Theorem X12_Ready_needs_every_feed cm inst m0 evs :
  let m := feeds AlignPriceNumber (Init cm inst m0) evs in
  FutureMarket.Ready m = true ->
  existsb isMarkPriceResp evs = true
  /\ (exists s b, lastPriceLimit evs = Some (s, b)
                  /\ minSellPrice m = s /\ maxBuyPrice m = b)
  /\ (Contains inst "SWAP" = true -> existsb isFundingRateResp evs = true)
  /\ evs <> [].
Proof.
  intros m Hready. subst m. unfold FutureMarket.Ready in Hready.
  apply andb_true_iff in Hready as [Hready Hlimit].
  apply andb_true_iff in Hready as [Hready Hmark].
  apply andb_true_iff in Hready as [_ Hfund].
  pose proof (feeds_markprice cm inst m0 evs Hmark) as Hm.
  split; [done|]. split; [|split].
  - pose proof (feeds_priceLimit cm inst m0 evs) as Hl. simpl in Hl.
    destruct (lastPriceLimit evs) as [[s b]|]; [by exists s, b|].
    destruct Hl as [Hl _]. congruence.
  - intros Hswap. by apply (feeds_funding_swap cm inst m0).
  - intros ->. discriminate.
Qed.

(** X13. An instrument that is not a perpetual swap has no funding feed,
    and its funding flag, raised by [Init], stays up whatever its feeds
    deliver: such a market is ready exactly when depth, mark price and
    price limits are fresh. *)
Theorem X13_dated_future_needs_no_funding cm inst m0 evs :
  Contains inst "SWAP" = false ->
  Forall (fun ev => possible inst ev = true) evs ->
  let m := feeds AlignPriceNumber (Init cm inst m0) evs in
  fundingFeeOK m = true
  /\ FutureMarket.Ready m = depthOK (base m) && markpriceOK m && priceLimitOK m.
Proof.
  intros Hswap Hall m.
  assert (Hf : fundingFeeOK m = true).
  { subst m. induction evs as [|ev evs IH] using rev_ind.
    - simpl. by rewrite Hswap.
    - apply Forall_app in Hall as [Hall Hev%Forall_inv].
      rewrite feeds_snoc. specialize (IH Hall).
      destruct ev as [| | | [] | | | |];
        cbn [feed possible set_markpriceOK set_priceLimitOK set_fundingFeeOK
             onMarkPriceResp onFundingRateResp priceLimitCallback
             onPriceLimitResp with_base fundingFeeOK] in *;
        congruence. }
  split; [done|]. unfold FutureMarket.Ready. rewrite Hf.
  by rewrite andb_true_r.
Qed.

(** X14. While the market is ready, [AlignPrice] keeps a buy price at or
    below the buy limit of the latest price-limit response, and a sell
    price at or above its sell limit. *)
Theorem X14_ready_market_aligns_within_latest_limits cm inst m0 evs
        price makeOnly :
  let m := feeds AlignPriceNumber (Init cm inst m0) evs in
  FutureMarket.Ready m = true ->
  exists s b,
    lastPriceLimit evs = Some (s, b)
    /\ AlignPrice align m price OrderDir_Buy makeOnly <= b
    /\ s <= AlignPrice align m price OrderDir_Sell makeOnly.
Proof.
  intros m Hready.
  assert (Hlimit : priceLimitOK m = true).
  { unfold FutureMarket.Ready in Hready.
    by apply andb_true_iff in Hready as [_ ?]. }
  pose proof (feeds_priceLimit cm inst m0 evs) as Hl. simpl in Hl.
  fold m in Hl.
  destruct (lastPriceLimit evs) as [[s b]|];
    [|destruct Hl as [Hl _]; congruence].
  destruct Hl as [Hs Hb]. exists s, b. split; [done|].
  unfold AlignPrice, GreaterThan, LessThan. rewrite Hs, Hb. simpl. split.
  - case_bool_decide; [apply Qcle_refl | by apply Qcnot_lt_le].
  - case_bool_decide; [apply Qcle_refl | by apply Qcnot_lt_le].
Qed.

(** X15. Only a price-limit response or a change of the embedded common
    market changes what [AlignPrice] returns: over any sequence of other
    events, the time-out of the price-limit feed among them, prices are
    still clamped to the limits received last. *)
Theorem X15_stale_limits_stay_in_use m evs price dir makeOnly :
  Forall (fun ev => match ev with
                    | PriceLimitResp _ _ | PriceLimitREST true _ _
                    | CommonFeed _ => False
                    | _ => True
                    end) evs ->
  AlignPrice align (feeds AlignPriceNumber m evs) price dir makeOnly
  = AlignPrice align m price dir makeOnly.
Proof.
  intros Hall. induction evs as [|ev evs IH] using rev_ind; [done|].
  apply Forall_app in Hall as [Hall Hev%Forall_inv].
  rewrite feeds_snoc, <- (IH Hall).
  by destruct ev as [| | | [] | | | |].
Qed.

End FeedFacts.

(* ===================================================================== *)
(** * Further facts about the contract order                              *)
(* ===================================================================== *)

Section ContractOrderFacts.

Import okexv5 okexv5.ContractOrder.

Variable PositonMode_LS : string.

Implicit Types (o : ContractOrder.t).

(** X16. Outside the long/short position mode no position side is sent
    (the empty string); inside it the side is always "long" or "short". *)
Theorem X16_getPosSide_range o :
  (PositionMode (ContractOrder.trader o) <> PositonMode_LS ->
   getPosSide PositonMode_LS o = "")
  /\ (PositionMode (ContractOrder.trader o) = PositonMode_LS ->
      getPosSide PositonMode_LS o = "long" \/ getPosSide PositonMode_LS o = "short").
Proof.
  unfold getPosSide. split; intros Hmode.
  - by rewrite bool_decide_eq_false_2.
  - rewrite bool_decide_eq_true_2 by done.
    case_bool_decide; destruct (_ || _); auto.
Qed.

(** X17. In the long/short position mode a reduce-only order never opens
    a position, whatever the trader holds: a reduce-only buy goes to the
    short side, a reduce-only order of any other direction to the long
    side. *)
Theorem X17_reduceOnly_never_opens o :
  PositionMode (ContractOrder.trader o) = PositonMode_LS ->
  ReduceOnly (ContractOrder.base o) = true ->
  getPosSide PositonMode_LS o
  = if bool_decide (Dir (ContractOrder.base o) = OrderDir_Buy) then "short" else "long".
Proof.
  intros Hmode Hro. unfold getPosSide.
  rewrite bool_decide_eq_true_2 by done. rewrite Hro, !orb_true_r. done.
Qed.

(** Without reduce-only, in the long/short position mode, a buy
    closes shorts exactly when the short position covers the order size
    and opens a long otherwise; every other direction, a direction that is
    neither buy nor sell included, is handled as a sell: it closes longs
    exactly when the long position covers the size and opens a short
    otherwise. *)
Lemma getPosSide_by_position o :
  PositionMode (ContractOrder.trader o) = PositonMode_LS ->
  ReduceOnly (ContractOrder.base o) = false ->
  (Dir (ContractOrder.base o) = OrderDir_Buy ->
   (getPosSide PositonMode_LS o = "short"
    <-> Size (ContractOrder.base o) <= pos_Short (ContractOrder.trader o))
   /\ (getPosSide PositonMode_LS o = "long"
       <-> pos_Short (ContractOrder.trader o) < Size (ContractOrder.base o)))
  /\ (Dir (ContractOrder.base o) <> OrderDir_Buy ->
      (getPosSide PositonMode_LS o = "long"
       <-> Size (ContractOrder.base o) <= pos_Long (ContractOrder.trader o))
      /\ (getPosSide PositonMode_LS o = "short"
          <-> pos_Long (ContractOrder.trader o) < Size (ContractOrder.base o))).
Proof.
  intros Hmode Hro. unfold getPosSide, GreaterThanOrEqual.
  rewrite bool_decide_eq_true_2 by done. rewrite Hro, !orb_false_r.
  split; intros Hdir.
  - rewrite bool_decide_eq_true_2 by done.
    case_bool_decide as Hle; (split; split); try done;
      try (intros _; by apply Qcnot_le_lt);
      try (intros Hlt; by apply Qcle_not_lt in Hle).
  - rewrite bool_decide_eq_false_2 by done.
    case_bool_decide as Hle; (split; split); try done;
      try (intros _; by apply Qcnot_le_lt);
      try (intros Hlt; by apply Qcle_not_lt in Hle).
Qed.

Variable NewClientOrderId : string -> string.
Variable CommonOrder_Init :
  CommonOrder -> FutureTrader -> string -> Decimal -> Decimal ->
  OrderDir -> bool -> bool -> string -> CommonOrder * bool.

(** X18. [Init] succeeds exactly when [CommonOrder.Init] does, installs
    the two hooks only then, and binds the order to the trader either way.
    The client order id is made from the purpose the order carried before
    the call, not from the [purpose] argument: the order that
    [CommonOrder.Init] receives has the same client order id whatever
    purpose is passed. *)
Theorem X18_ContractOrder_Init o tr price amount dir makeOnly reduceOnly
        purpose :
  let c1 := with_CltOrderId (NewClientOrderId (Purpose (ContractOrder.base o)))
                            (ContractOrder.base o) in
  let inner := CommonOrder_Init c1 tr (ContractOrder.instId tr) price amount dir
                                makeOnly reduceOnly purpose in
  let r := ContractOrder.Init NewClientOrderId CommonOrder_Init o tr price amount
                              dir makeOnly reduceOnly purpose in
  r.2 = inner.2
  /\ ContractOrder.trader r.1 = tr
  /\ (r.2 = true -> hooks (ContractOrder.base r.1) = true)
  /\ (r.2 = false -> ContractOrder.base r.1 = inner.1)
  /\ (forall purpose',
         (forall c, CltOrderId
                      (CommonOrder_Init c tr (ContractOrder.instId tr) price amount
                         dir makeOnly reduceOnly purpose').1 = CltOrderId c) ->
         CltOrderId
           (ContractOrder.base
              (ContractOrder.Init NewClientOrderId CommonOrder_Init o tr price
                 amount dir makeOnly reduceOnly purpose').1)
         = NewClientOrderId (Purpose (ContractOrder.base o))).
Proof.
  intros c1 inner r. subst r inner. unfold ContractOrder.Init. fold c1.
  destruct (CommonOrder_Init c1 tr (ContractOrder.instId tr) price amount dir
              makeOnly reduceOnly purpose) as [c2 ok] eqn:Hin.
  simpl. destruct ok; simpl; (repeat split; try done).
  all: intros purpose' Hkeep; specialize (Hkeep c1);
    destruct (CommonOrder_Init c1 tr (ContractOrder.instId tr) price amount dir
                makeOnly reduceOnly purpose') as [c3 ok3];
    simpl in *; destruct ok3; simpl; by rewrite Hkeep.
Qed.

End ContractOrderFacts.

(* ===================================================================== *)
(** * The REST calls of the spot API                                      *)
(* ===================================================================== *)

Section ApiFacts.

Import binancespotapi.

Variable LogPanic_returns : bool.

Lemma int64_small (z : Z) :
  (- 2 ^ 63 <= z < 2 ^ 63)%Z -> int64 z = z.
Proof. intros Hz. unfold int64. rewrite Z.mod_small; lia. Qed.

(** X19. The request parameters of [CancelOrder] and [GetOrder] always
    carry the symbol and never both ids.  A positive order id wins: the
    client order id is then ignored.  An order id that is zero or negative
    counts as absent, and the client order id is sent if it is not empty.
    With neither id the logger's panic is raised, and should the logger
    return, the request goes out with the symbol alone. *)
Theorem X19_orderParams_one_id symbol orderId clientOrderId :
  ((0 < orderId)%Z ->
   exists ps,
     orderParams LogPanic_returns symbol orderId clientOrderId = Done ps
     /\ ps !! "orderId" = Some (pretty orderId)
     /\ ps !! "origClientOrderId" = None
     /\ forall clientOrderId',
          orderParams LogPanic_returns symbol orderId clientOrderId' = Done ps)
  /\ ((orderId <= 0)%Z -> clientOrderId <> "" ->
      exists ps,
        orderParams LogPanic_returns symbol orderId clientOrderId = Done ps
        /\ ps !! "orderId" = None
        /\ ps !! "origClientOrderId" = Some clientOrderId)
  /\ ((orderId <= 0)%Z -> clientOrderId = "" ->
      orderParams LogPanic_returns symbol orderId clientOrderId
      = if LogPanic_returns then Done {[ "symbol" := symbol ]} else Panics)
  /\ (forall ps,
         orderParams LogPanic_returns symbol orderId clientOrderId = Done ps ->
         ps !! "symbol" = Some symbol
         /\ ~ (is_Some (ps !! "orderId") /\ is_Some (ps !! "origClientOrderId"))).
Proof.
  unfold orderParams. split; [|split; [|split]].
  - intros Hpos. rewrite bool_decide_eq_true_2 by done.
    eexists. split; [done|]. split; [by rewrite lookup_insert_eq|].
    split; [by rewrite !lookup_insert_ne|].
    done.
  - intros Hle Hne. rewrite bool_decide_eq_false_2 by lia.
    rewrite bool_decide_eq_true_2 by (destruct clientOrderId; simpl; [done|lia]).
    eexists. split; [done|]. split; [by rewrite !lookup_insert_ne|].
    by rewrite lookup_insert_eq.
  - intros Hle ->. rewrite bool_decide_eq_false_2 by lia. simpl.
    by rewrite insert_empty.
  - intros ps. repeat case_bool_decide; [| |destruct LogPanic_returns];
      intros [= <-]; (split; [by simplify_map_eq|]);
      intros [[? H1] [? H2]]; simplify_map_eq.
Qed.

(** X20. Once [serverTsDelta] is not zero it is never measured again: no
    sequence of [ServerTs] and [GetExchangeInfo] calls changes it, whatever
    the server answers, and [ServerTs] is then the local clock plus the
    offset without a request to the server (so its answer, an error
    included, plays no part). *)
Theorem X20_serverTsDelta_is_measured_once (delta : Z) :
  delta <> 0%Z ->
  (forall cs, calls LogPanic_returns cs delta = Done delta)
  /\ (forall resp now1 now2,
         ServerTs LogPanic_returns resp now1 now2 delta
         = Done (int64 (now2 + delta), delta)).
Proof.
  intros Hne.
  assert (Hts : forall resp now1 now2,
             ServerTs LogPanic_returns resp now1 now2 delta
             = Done (int64 (now2 + delta), delta)).
  { intros. unfold ServerTs. by rewrite bool_decide_eq_false_2. }
  split; [|done].
  induction cs as [|c cs IH]; simpl; [done|].
  destruct c as [resp now1 now2|resp now]; simpl.
  - by rewrite Hts.
  - unfold GetExchangeInfo_sync. destruct resp; [|done].
    by rewrite bool_decide_eq_false_2.
Qed.

(** X21. The first [ServerTs] call, on an answer [sts] of the server other
    than zero and with clocks in the [int64] range, stores the offset
    [sts - now1] and returns the server time advanced by the local time
    that has passed since the first reading of the clock.  Zero doubles as
    "not measured": when the server's clock equals the local one the
    stored offset is zero again, and the next call asks the server
    again. *)
Theorem X21_ServerTs_first_call (sts now1 now2 : Z) :
  sts <> 0%Z ->
  (- 2 ^ 63 <= sts - now1 < 2 ^ 63)%Z ->
  (- 2 ^ 63 <= now2 + (sts - now1) < 2 ^ 63)%Z ->
  ServerTs LogPanic_returns (Some sts) now1 now2 0
  = Done ((sts + (now2 - now1))%Z, (sts - now1)%Z)
  /\ (sts = now1 ->
      ServerTs LogPanic_returns (Some sts) now1 now2 0 = Done (now2, 0%Z)).
Proof.
  intros Hne Hd Hr.
  assert (Hfirst : ServerTs LogPanic_returns (Some sts) now1 now2 0
                   = Done ((sts + (now2 - now1))%Z, (sts - now1)%Z)).
  { unfold ServerTs. simpl. rewrite bool_decide_eq_true_2 by done.
    rewrite (int64_small (sts - now1)) by done.
    rewrite int64_small by done. do 2 f_equal. lia. }
  split; [done|]. intros ->. rewrite Hfirst. do 2 f_equal; lia.
Qed.

End ApiFacts.

(* ===================================================================== *)
(** * The further facts at concrete inputs                                *)
(* ===================================================================== *)

Section MoreInstances.

Import binance Examples.

Lemma X1_witness :
  let w := world0 false true true false in
  errorlock (trader w) = false
  /\ (UnreadyReason w = "" <-> Ready w = true).
Proof.
  intros w. split; [reflexivity|].
  apply (X1_UnreadyReason_empty_iff_Ready w); [reflexivity|].
  intros _. vm_compute. discriminate.
Defined.

Lemma X2_witness :
  let w := world0 true true true false in
  let r := MakeOrder (H := package0) (NewFromInt 100) 1 OrderDir_Buy
                     false false "test" "strategy" w in
  Ready w = true
  /\ trace r.2 = trace w ++ [Go "cid-1"].
Proof.
  intros w r.
  assert (Hready : Ready w = true) by reflexivity.
  assert (Hinit : SpotOrder_Init (Package := package0) w (NewFromInt 100) 1
                    OrderDir_Buy false "test"
                  = Some (mkSpotOrder "cid-1" OrderDir_Buy (NewFromInt 100) 1
                                      false "test" false []))
    by reflexivity.
  split; [exact Hready|].
  pose proof (X2_MakeOrder_registers (Package0 := package0) (NewFromInt 100) 1
                OrderDir_Buy false false "test" "strategy" w _ Hready Hinit) as H.
  apply H.
Defined.

Lemma X3_witness :
  let w := world0 true true true false in
  Ready w = true
  /\ MakeOrder (H := package_reject) (NewFromInt 100) 1 OrderDir_Buy
               false false "test" "strategy" w = (None, w).
Proof.
  intros w.
  assert (Hready : Ready w = true) by reflexivity.
  split; [exact Hready|].
  apply (X3_MakeOrder_rejected_by_Init (Package0 := package_reject));
    [exact Hready | reflexivity].
Defined.

Lemma X5_witness :
  finished (trader sweep_world) = false
  /\ (order "b" false ∈ Orders (sweep sweep_world)
      <-> order "b" false ∈ Orders sweep_world /\ Finished (order "b" false) = false).
Proof.
  assert (Hrun : finished (trader sweep_world) = false) by reflexivity.
  split; [exact Hrun|].
  apply (X5_Orders_after_sweep sweep_world (order "b" false) Hrun).
Defined.

Lemma X7_witness :
  let w := world0 true true true false in
  orders (trader w) !! ClientOrderID unknown_snapshot = None
  /\ onOrderSnapshot (H := package0) 7 unknown_snapshot w = Returned w.
Proof.
  intros w.
  assert (Hnone : orders (trader w) !! ClientOrderID unknown_snapshot = None)
    by reflexivity.
  split; [exact Hnone|].
  apply (X7_snapshot_for_unknown_order_is_dropped (Package0 := package0)
           7 unknown_snapshot w Hnone).
  right. reflexivity.
Defined.

Lemma X8_witness :
  let r := onOrderSnapshot (H := package0) 7 snapshot_b sweep_world in
  dom (orders (trader (world_of r))) = dom (orders (trader sweep_world)).
Proof.
  intros r.
  assert (Hquiet : forall o,
             orders (trader sweep_world) !! ClientOrderID snapshot_b = Some o ->
             (SpotOrder_onSnapshot (Package := package0) snapshot_b o).2 = [])
    by (intros o _; reflexivity).
  apply (X8_snapshot_touches_one_order (Package0 := package0) 7 snapshot_b
           sweep_world Hquiet).
Defined.

Lemma X9_witness :
  let w := world0 true true true false in
  Forall (fun e => foreign (stratergyId (trader w)) e = false) quiet_day
  /\ errorlock (trader (run (H := package0) quiet_day w)) = false.
Proof.
  intros w.
  assert (Hall : Forall (fun e => foreign (stratergyId (trader w)) e = false)
                        quiet_day)
    by (repeat constructor).
  split; [exact Hall|].
  apply (X9_only_foreign_snapshots_lock (Package0 := package0) quiet_day w Hall).
Defined.

Lemma X12_witness :
  let m := okexv5.FutureMarket.feeds number_on_grid fresh_swap swap_feeds in
  okexv5.FutureMarket.Ready m = true
  /\ exists s b,
      okexv5.FutureMarket.lastPriceLimit swap_feeds = Some (s, b)
      /\ okexv5.FutureMarket.minSellPrice m = s
      /\ okexv5.FutureMarket.maxBuyPrice m = b.
Proof.
  intros m.
  assert (Hready : okexv5.FutureMarket.Ready m = true) by reflexivity.
  split; [exact Hready|].
  apply (X12_Ready_needs_every_feed number_on_grid
           (okexv5.mkCommonMarket "BTC-USDT-SWAP" true) "BTC-USDT-SWAP"
           okexv5.FutureMarket.zero swap_feeds Hready).
Defined.

Lemma X13_witness :
  let m := okexv5.FutureMarket.feeds number_on_grid
             (okexv5.FutureMarket.Init (okexv5.mkCommonMarket "BTC-USD-240329" true)
                "BTC-USD-240329" okexv5.FutureMarket.zero)
             future_feeds in
  okexv5.FutureMarket.Contains "BTC-USD-240329" "SWAP" = false
  /\ okexv5.FutureMarket.fundingFeeOK m = true.
Proof.
  intros m.
  assert (Hswap : okexv5.FutureMarket.Contains "BTC-USD-240329" "SWAP" = false)
    by reflexivity.
  split; [exact Hswap|].
  apply (X13_dated_future_needs_no_funding number_on_grid
           (okexv5.mkCommonMarket "BTC-USD-240329" true) "BTC-USD-240329"
           okexv5.FutureMarket.zero future_feeds Hswap).
  repeat constructor.
Defined.

Lemma X14_witness :
  let m := okexv5.FutureMarket.feeds number_on_grid fresh_swap swap_feeds in
  okexv5.FutureMarket.Ready m = true
  /\ exists s b,
      okexv5.FutureMarket.lastPriceLimit swap_feeds = Some (s, b)
      /\ okexv5.FutureMarket.AlignPrice on_grid m (NewFromInt 500) OrderDir_Buy false
         <= b
      /\ s <= okexv5.FutureMarket.AlignPrice on_grid m (NewFromInt 5)
                OrderDir_Sell false.
Proof.
  intros m.
  assert (Hready : okexv5.FutureMarket.Ready m = true) by reflexivity.
  split; [exact Hready|].
  destruct (X14_ready_market_aligns_within_latest_limits number_on_grid on_grid
              (okexv5.mkCommonMarket "BTC-USDT-SWAP" true) "BTC-USDT-SWAP"
              okexv5.FutureMarket.zero swap_feeds (NewFromInt 500) false Hready)
    as (s & b & Hlast & Hbuy & _).
  destruct (X14_ready_market_aligns_within_latest_limits number_on_grid on_grid
              (okexv5.mkCommonMarket "BTC-USDT-SWAP" true) "BTC-USDT-SWAP"
              okexv5.FutureMarket.zero swap_feeds (NewFromInt 5) false Hready)
    as (s' & b' & Hlast' & _ & Hsell).
  exists s, b. split; [exact Hlast|]. split; [exact Hbuy|].
  rewrite Hlast in Hlast'. injection Hlast' as <- <-. exact Hsell.
Defined.

Lemma X15_witness :
  let m := okexv5.FutureMarket.priceLimitCallback (NewFromInt 90) (NewFromInt 110)
             fresh_swap in
  okexv5.FutureMarket.AlignPrice on_grid
    (okexv5.FutureMarket.feeds number_on_grid m
       [okexv5.FutureMarket.PriceLimitTimeout; okexv5.FutureMarket.MarkPriceTimeout])
    (NewFromInt 120) OrderDir_Buy false
  = okexv5.FutureMarket.AlignPrice on_grid m (NewFromInt 120) OrderDir_Buy false.
Proof.
  intros m.
  apply (X15_stale_limits_stay_in_use number_on_grid on_grid m
           [okexv5.FutureMarket.PriceLimitTimeout;
            okexv5.FutureMarket.MarkPriceTimeout]).
  repeat constructor.
Defined.

Lemma X17_witness :
  let o := okexv5.ContractOrder.mk
             (okexv5.ContractOrder.mkCommonOrder "cid-1" "close" OrderDir_Sell
                (NewFromInt 5) true true)
             flat_trader in
  okexv5.ContractOrder.getPosSide "long_short_mode" o = "long".
Proof.
  intros o.
  apply (X17_reduceOnly_never_opens "long_short_mode" o); reflexivity.
Defined.

Lemma X20_witness :
  binancespotapi.calls true
    [binancespotapi.CallGetExchangeInfo (Some 1700000000000%Z) 1700000000500%Z;
     binancespotapi.CallServerTs None 1700000001000%Z 1700000001001%Z] 250%Z
  = binancespotapi.Done 250%Z.
Proof.
  assert (Hne : 250%Z <> 0%Z) by discriminate.
  destruct (X20_serverTsDelta_is_measured_once true 250%Z Hne) as [H _].
  apply H.
Defined.

Lemma X21_witness :
  binancespotapi.ServerTs true (Some 1700000000500%Z)
                          1700000000000%Z 1700000000100%Z 0%Z
  = binancespotapi.Done (1700000000600%Z, 500%Z).
Proof.
  assert (Hne : 1700000000500%Z <> 0%Z) by discriminate.
  assert (Hd : (- 2 ^ 63 <= 1700000000500 - 1700000000000 < 2 ^ 63)%Z) by lia.
  assert (Hr : (- 2 ^ 63 <= 1700000000100 + (1700000000500 - 1700000000000)
                < 2 ^ 63)%Z) by lia.
  destruct (X21_ServerTs_first_call true 1700000000500%Z 1700000000000%Z
              1700000000100%Z Hne Hd Hr) as [H _].
  exact H.
Defined.

End MoreInstances.
